(** * Todo-agents: the orchestrator's agent loop and the todo-storage provider

    A shallow embedding of [server.js] (tool registry, [callMCPTool], the
    [POST /api/chat] agent loop and its server-sent events) and of
    [servers/todo-storage.js] (the tool-call handler over [todos.json]),
    followed by the properties of the design document that the code decides. *)

From Stdlib Require Import String Ascii List Lia.
From stdpp Require Import base option list strings gmap fin_maps.
Import ListNotations.
Local Open Scope string_scope.

(** ** JavaScript values used by both files *)

Module Js.

(** What a JavaScript call produces: a value, or a thrown [Error] of which
    only [err.message] is ever observed. *)
Inductive outcome (A : Type) : Type :=
| Ok (a : A)
| Throw (message : string).
Arguments Ok {A} a.
Arguments Throw {A} message.

(** Truthiness of a string: only the empty string is falsy. *)
Definition truthy (s : string) : bool := negb (String.eqb s "").

(** Truthiness of a property that may be [undefined] (or [null]). *)
Definition truthy_opt (o : option string) : bool :=
  match o with
  | Some s => truthy s
  | None => false
  end.

(** [a || b] on a possibly undefined string property. *)
Definition or_else (o : option string) (d : string) : string :=
  match o with
  | Some s => if truthy s then s else d
  | None => d
  end.

(** [`${x}`] for a property that may be [undefined]. *)
Definition template (o : option string) : string := default "undefined" o.

(** [x === s] where [x] may be [undefined] and [s] is a string. *)
Definition strict_eq (x : option string) (s : string) : bool :=
  match x with
  | Some x' => String.eqb x' s
  | None => false
  end.

(** [Array.prototype.findIndex]; [None] stands for the result [-1]. *)
Fixpoint findIndex {A : Type} (p : A -> bool) (l : list A) : option nat :=
  match l with
  | [] => None
  | x :: l' => if p x then Some 0 else S <$> findIndex p l'
  end.

Definition newline : string := String "010"%char EmptyString.

(** [lines.join('\n')]. *)
Definition join_lines (lines : list string) : string :=
  String.concat newline lines.

End Js.

(** ** The MCP tool-provider boundary *)

Module Mcp.

(** One segment of a tool result's [content] array.  Only text segments
    carry a [text] property. *)
Record segment : Type := Segment {
  seg_type : string;
  seg_text : option string
}.

Definition text_segment (text : string) : segment :=
  {| seg_type := "text"; seg_text := Some text |}.

Record call_result : Type := CallResult { content : list segment }.

(** [{ content: [{ type: 'text', text }] }] *)
Definition text_result (text : string) : call_result :=
  {| content := [text_segment text] |}.

(** The [arguments] object of a tool call: string-valued properties, a
    missing key being [undefined]. *)
Abbreviation args := (gmap string string).

End Mcp.

(** ** servers/todo-storage.js *)

Module TodoStorage.
Import Js Mcp.

Record todo : Type := Todo {
  id : string;
  title : option string;          (* [args.title], undefined when not given *)
  description : string;
  priority : string;
  due_date : option string;       (* [null] or a string *)
  completed : bool;
  created_at : string;
  updated_at : option string;
  completed_at : option string
}.

(** The data file: [None] when it is missing or does not parse.  A file
    that parses is taken to hold an array of todos, as the handler writes
    it; any other JSON value is outside this model. *)
Definition file : Type := option (list todo).

(** The two readings of the clock a call may take. *)
Record clock : Type := Clock {
  now_ms : string;                (* [Date.now().toString()] *)
  now_iso : string                (* [new Date().toISOString()] *)
}.

Definition readTodos (f : file) : list todo := default [] f.

Definition writeTodos (todos : list todo) : file := Some todos.

Definition check_mark : string :=
  String "226"%char (String "156"%char (String "147"%char EmptyString)).
Definition circle_mark : string :=
  String "226"%char (String "151"%char (String "139"%char EmptyString)).
Definition quote : string := String "034"%char EmptyString.

(** The status filter of [list_todos]. *)
Definition status_filter (status : option string) (todos : list todo) : list todo :=
  let todos :=
    if strict_eq status "pending"
    then List.filter (fun t => negb (completed t)) todos else todos in
  if strict_eq status "completed"
  then List.filter (fun t => completed t) todos else todos.

(** The priority filter of [list_todos], applied only to a truthy argument. *)
Definition priority_filter (prio : option string) (todos : list todo) : list todo :=
  if truthy_opt prio
  then List.filter (fun t => strict_eq prio (priority t)) todos else todos.

Definition format_line (t : todo) : string :=
  "[" +:+ id t +:+ "] " +:+ (if completed t then check_mark else circle_mark)
      +:+ " " +:+ template (title t) +:+ " | " +:+ priority t +:+ " priority"
      +:+ (if truthy_opt (due_date t) then " | due " +:+ template (due_date t) else "")
      +:+ (if truthy (description t) then " | " +:+ description t else "").

Definition set_title (v : option string) (t : todo) : todo :=
  match v with
  | Some s => Todo (id t) (Some s) (description t) (priority t) (due_date t)
                   (completed t) (created_at t) (updated_at t) (completed_at t)
  | None => t
  end.

Definition set_description (v : option string) (t : todo) : todo :=
  match v with
  | Some s => Todo (id t) (title t) s (priority t) (due_date t)
                   (completed t) (created_at t) (updated_at t) (completed_at t)
  | None => t
  end.

Definition set_priority (v : option string) (t : todo) : todo :=
  match v with
  | Some s => Todo (id t) (title t) (description t) s (due_date t)
                   (completed t) (created_at t) (updated_at t) (completed_at t)
  | None => t
  end.

Definition set_due_date (v : option string) (t : todo) : todo :=
  match v with
  | Some s => Todo (id t) (title t) (description t) (priority t) (Some s)
                   (completed t) (created_at t) (updated_at t) (completed_at t)
  | None => t
  end.

Definition set_updated_at (now : string) (t : todo) : todo :=
  Todo (id t) (title t) (description t) (priority t) (due_date t)
       (completed t) (created_at t) (Some now) (completed_at t).

Definition set_completed (now : string) (t : todo) : todo :=
  Todo (id t) (title t) (description t) (priority t) (due_date t)
       true (created_at t) (updated_at t) (Some now).

(** The request handler for [CallToolRequestSchema]: the tool [name], its
    [arguments], the clock and the data file give the call's outcome and
    the data file afterwards. *)
Definition handler (clk : clock) (name : string) (a : args) (f : file)
  : outcome call_result * file :=
  if String.eqb name "create_todo" then
    let todos := readTodos f in
    let t := {| id := now_ms clk;
                title := a !! "title";
                description := or_else (a !! "description") "";
                priority := or_else (a !! "priority") "medium";
                due_date := if truthy_opt (a !! "due_date") then a !! "due_date" else None;
                completed := false;
                created_at := now_iso clk;
                updated_at := None;
                completed_at := None |} in
    let todos := (todos ++ [t])%list in
    (Ok (text_result ("Created todo " +:+ quote +:+ template (title t) +:+ quote
                        +:+ " with ID " +:+ id t)),
     writeTodos todos)
  else if String.eqb name "list_todos" then
    let todos := readTodos f in
    let todos := status_filter (a !! "status") todos in
    let todos := priority_filter (a !! "priority") todos in
    if Nat.eqb (length todos) 0 then
      (Ok (text_result "No todos match the filter."), f)
    else
      let lines := map format_line todos in
      (Ok (text_result (join_lines lines)), f)
  else if String.eqb name "update_todo" then
    let todos := readTodos f in
    match findIndex (fun t => strict_eq (a !! "id") (id t)) todos with
    | None =>
        (Ok (text_result ("No todo found with ID " +:+ template (a !! "id"))), f)
    | Some idx =>
        let todos := alter (set_title (a !! "title")) idx todos in
        let todos := alter (set_description (a !! "description")) idx todos in
        let todos := alter (set_priority (a !! "priority")) idx todos in
        let todos := alter (set_due_date (a !! "due_date")) idx todos in
        let todos := alter (set_updated_at (now_iso clk)) idx todos in
        (Ok (text_result ("Updated todo " +:+ quote
                            +:+ template (todos !! idx ≫= title) +:+ quote)),
         writeTodos todos)
    end
  else if String.eqb name "complete_todo" then
    let todos := readTodos f in
    match findIndex (fun t => strict_eq (a !! "id") (id t)) todos with
    | None =>
        (Ok (text_result ("No todo found with ID " +:+ template (a !! "id"))), f)
    | Some idx =>
        let todos := alter (set_completed (now_iso clk)) idx todos in
        (Ok (text_result ("Marked " +:+ quote +:+ template (todos !! idx ≫= title)
                            +:+ quote +:+ " as complete " +:+ check_mark)),
         writeTodos todos)
    end
  else if String.eqb name "delete_todo" then
    let todos := readTodos f in
    match findIndex (fun t => strict_eq (a !! "id") (id t)) todos with
    | None =>
        (Ok (text_result ("No todo found with ID " +:+ template (a !! "id"))), f)
    | Some idx =>
        let deleted := todos !! idx in
        let todos := delete idx todos in
        (Ok (text_result ("Deleted " +:+ quote +:+ template (deleted ≫= title) +:+ quote)),
         writeTodos todos)
    end
  else
    (Throw ("Unknown tool: " +:+ name), f).

(** *** What [list_todos] is specified to list

    Written out without the handler's helpers.  The status filter:
    [pending] leaves out the completed todos, [completed] keeps only them,
    anything else keeps all. *)
Definition status_selects (status : option string) (t : todo) : bool :=
  match status with
  | Some s =>
      if String.eqb s "pending" then negb (completed t)
      else if String.eqb s "completed" then completed t
      else true
  | None => true
  end.

(** The priority filter: a priority that is given (a non-empty string, as
    the schema's [low], [medium] and [high] are) keeps the todos of that
    priority; without one every todo is kept. *)
Definition priority_selects (prio : option string) (t : todo) : bool :=
  match prio with
  | None | Some "" => true
  | Some p => String.eqb p (priority t)
  end.

Definition selected (status prio : option string) (t : todo) : bool :=
  status_selects status t && priority_selects prio t.

(** The line of one todo: its id in brackets, a check mark when it is
    completed and a circle when not, its title, its priority, then its due
    date and its description when it has them. *)
Definition shown_line (t : todo) : string :=
  "[" +:+ id t +:+ "] "
  +:+ (if completed t then "✓" else "○") +:+ " "
  +:+ match title t with Some s => s | None => "undefined" end
  +:+ " | " +:+ priority t +:+ " priority"
  +:+ match due_date t with
      | None | Some "" => ""
      | Some d => " | due " +:+ d
      end
  +:+ match description t with
      | "" => ""
      | d => " | " +:+ d
      end.

(** The text specified for a given stored list: the lines of the selected
    todos, in stored order, with a line feed between two lines. *)
Definition listing (status prio : option string) (todos : list todo) : string :=
  match List.filter (selected status prio) todos with
  | [] => "No todos match the filter."
  | matching => String.concat (String "010"%char EmptyString) (map shown_line matching)
  end.

End TodoStorage.

(** ** server.js *)

Module Server.
Import Js Mcp.

(** *** Tool registry *)

(** The values stored in [toolServerMap]: the strings ['storage'] and
    ['ai'], both truthy. *)
Inductive server_id : Type := storage | ai.

(** An entry of a provider's [listTools()] answer. *)
Record mcp_tool : Type := McpTool {
  mt_name : string;
  mt_description : string;
  mt_inputSchema : string
}.

(** An entry of [allTools], the declaration sent to the reasoning engine. *)
Record tool_decl : Type := ToolDecl {
  name : string;
  description : string;
  input_schema : string
}.

(** The module-level state that [initMCP] fills in. *)
Record registry : Type := Registry {
  toolServerMap : gmap string server_id;
  allTools : list tool_decl
}.

Definition empty_registry : registry :=
  {| toolServerMap := ∅; allTools := [] |}.

(** One iteration of a registration loop of [initMCP]. *)
Definition register (server : server_id) (r : registry) (t : mcp_tool) : registry :=
  {| toolServerMap := <[mt_name t := server]> (toolServerMap r);
     allTools := (allTools r ++
                  [ToolDecl (mt_name t) (mt_description t) (mt_inputSchema t)])%list |}.

(** A provider subprocess as [initMCP] meets it: whether [client.connect]
    resolves, and what [listTools()] answers ([None] when it rejects). *)
Record provider_process : Type := ProviderProcess {
  connects : bool;
  tools : option (list mcp_tool)
}.

(** [initMCP]; [None] is a rejected promise. *)
Definition initMCP (storage_proc ai_proc : provider_process) : option registry :=
  if negb (connects storage_proc) then None
  else if negb (connects ai_proc) then None
  else
    match tools storage_proc, tools ai_proc with
    | Some storageMeta, Some aiMeta =>
        let r := foldl (register storage) empty_registry storageMeta in
        let r := foldl (register ai) r aiMeta in
        Some r
    | _, _ => None
    end.

(** The start of the process: listen once [initMCP] resolved, exit with
    code 1 when it rejected.  [app.listen] is taken to return: a call of it
    that throws is outside this model. *)
Inductive startup : Type :=
| Listening (r : registry)
| Exit (code : nat).

Definition start (storage_proc ai_proc : provider_process) : startup :=
  match initMCP storage_proc ai_proc with
  | Some r => Listening r
  | None => Exit 1
  end.

(** *** Conversation and events *)

Section Conversation.
Context {Input : Type}.

(** A content block of an engine response, by its [type]. *)
Inductive block : Type :=
| Text (text : string)
| ToolUse (id : string) (name : string) (input : Input)
| OtherBlock (type : string).

(** [{ type: 'tool_result', tool_use_id, content }] *)
Record tool_result_block : Type := ToolResult {
  tool_use_id : string;
  tr_content : string
}.

Inductive role : Type := user | assistant.

Inductive message_content : Type :=
| Str (s : string)
| Blocks (bs : list block)
| ToolResults (rs : list tool_result_block).

Record message : Type := Message {
  msg_role : role;
  msg_content : message_content
}.

(** What [anthropic.messages.create] resolves to. *)
Record response : Type := Response {
  stop_reason : string;
  resp_content : list block
}.

(** The server-sent events, by their [type]: ['tool_call'],
    ['tool_result'], ['response'], ['done'] and ['error']. *)
Inductive event : Type :=
| EvToolCall (name : string) (input : Input)
| EvToolResult (name : string) (result : string)
| EvResponse (text : string)
| EvDone (messages : list message)
| EvError (message : string).

Definition is_tool_use (b : block) : bool :=
  match b with ToolUse _ _ _ => true | _ => false end.

Definition is_tool_event (e : event) : bool :=
  match e with EvToolCall _ _ | EvToolResult _ _ => true | _ => false end.

Definition is_error (e : event) : bool :=
  match e with EvError _ => true | _ => false end.

Definition is_done (e : event) : bool :=
  match e with EvDone _ => true | _ => false end.

(** [content.find(b => b.type === 'text')?.text ?? ''] *)
Fixpoint first_text (content : list block) : string :=
  match content with
  | [] => ""
  | Text text :: _ => text
  | _ :: rest => first_text rest
  end.

End Conversation.
Arguments block : clear implicits.
Arguments message : clear implicits.
Arguments message_content : clear implicits.
Arguments response : clear implicits.
Arguments event : clear implicits.

(** *** The two external services *)

(** The reasoning engine and the provider clients, as functions of the
    outside world [World] they read and change. *)
Class Backend (Input World : Type) : Type := {
  messages_create :
    list (message Input) -> list tool_decl -> World ->
    outcome (response Input) * World;
  callTool :
    server_id -> string -> Input -> World -> outcome call_result * World
}.

Section AgentLoop.
Context {Input World : Type} `{!Backend Input World}.

(** [callMCPTool] *)
Definition callMCPTool (r : registry) (name : string) (args : Input) (w : World)
  : outcome string * World :=
  match toolServerMap r !! name with
  | None => (Throw ("No MCP server registered for tool: " +:+ name), w)
  | Some server =>
      match callTool server name args w with
      | (Ok result, w') =>
          (Ok match Mcp.content result with
              | [] => ""
              | seg :: _ => default "" (seg_text seg)
              end, w')
      | (Throw msg, w') => (Throw msg, w')
      end
  end.

(** The two ways a single tool call fails: the name has no route in
    [toolServerMap], or the provider's client rejects the call.  [msg] is
    the message of the thrown error and [w'] the world it leaves. *)
Definition call_fails (r : registry) (name : string) (args : Input) (w : World)
    (msg : string) (w' : World) : Prop :=
  (toolServerMap r !! name = None
   /\ msg = "No MCP server registered for tool: " +:+ name /\ w' = w)
  \/ (exists server, toolServerMap r !! name = Some server
                    /\ callTool server name args w = (Throw msg, w')).

(** State of one request: the outside world and what has been written
    to [res] so far. *)
Record state : Type := State {
  world : World;
  written : list (event Input)
}.

(** Computations of the request handler: they may throw, and what was
    written before a throw stays written. *)
Definition M (A : Type) : Type := state -> outcome A * state.

Definition ret {A : Type} (a : A) : M A := fun st => (Ok a, st).

Definition bind {A B : Type} (m : M A) (k : A -> M B) : M B :=
  fun st =>
    match m st with
    | (Ok a, st') => k a st'
    | (Throw msg, st') => (Throw msg, st')
    end.

(** An awaited call on the outside world. *)
Definition await {A : Type} (f : World -> outcome A * World) : M A :=
  fun st =>
    let '(o, w') := f (world st) in
    (o, {| world := w'; written := written st |}).

(** [send(data)] *)
Definition send (data : event Input) : M unit :=
  fun st => (Ok tt, {| world := world st; written := (written st ++ [data])%list |}).

#[export] Instance M_ret : MRet M := @ret.
#[export] Instance M_bind : MBind M := fun A B k m => bind m k.

(** The body of [for (const block of response.content)], run over the
    blocks that remain, with the [toolResults] pushed so far. *)
Fixpoint for_blocks (r : registry) (blocks : list (block Input))
    (toolResults : list tool_result_block) : M (list tool_result_block) :=
  match blocks with
  | [] => mret toolResults
  | ToolUse id name input :: rest =>
      send (EvToolCall name input);;
      result ← await (callMCPTool r name input);
      send (EvToolResult name result);;
      for_blocks r rest (toolResults ++ [ToolResult id result])%list
  | _ :: rest => for_blocks r rest toolResults
  end.

(** How one pass through the body of [while (true)] ends: at the end
    of the body with the [messages] array as it then is, or at [break]. *)
Inductive round_end : Type :=
| Continue (messages : list (message Input))
| Break.

(** One pass through the body of [while (true)]. *)
Definition loop_body (r : registry) (messages : list (message Input)) : M round_end :=
  response ← await (messages_create messages (allTools r));
  if String.eqb (stop_reason response) "tool_use" then
    let messages :=
      (messages ++ [Message assistant (Blocks (resp_content response))])%list in
    toolResults ← for_blocks r (resp_content response) [];
    mret (Continue (messages ++ [Message user (ToolResults toolResults)])%list)
  else
    let text := first_text (resp_content response) in
    let messages :=
      (messages ++ [Message assistant (Blocks (resp_content response))])%list in
    send (EvResponse text);;
    send (EvDone messages);;
    mret Break.

(** [while (true) { ... }], unrolled at most [fuel] times; [None] when
    the loop is still running after [fuel] passes. *)
Fixpoint loop (fuel : nat) (r : registry) (messages : list (message Input))
    (st : state) : option (outcome unit * state) :=
  match fuel with
  | O => None
  | S fuel' =>
      match loop_body r messages st with
      | (Ok (Continue messages'), st') => loop fuel' r messages' st'
      | (Ok Break, st') => Some (Ok tt, st')
      | (Throw msg, st') => Some (Throw msg, st')
      end
  end.

(** [n] passes through the loop body that all reach the end of the
    body: the [messages] array and the state after them, if so. *)
Fixpoint rounds (n : nat) (r : registry) (messages : list (message Input))
    (st : state) : option (list (message Input) * state) :=
  match n with
  | O => Some (messages, st)
  | S n' =>
      match loop_body r messages st with
      | (Ok (Continue messages'), st') => rounds n' r messages' st'
      | _ => None
      end
  end.

(** [try { while ... } catch (err) { send error }] followed by
    [res.end()], from the [messages] and state of the start of a pass:
    the events of the closed stream and the world it leaves. *)
Definition try_loop (fuel : nat) (r : registry) (messages : list (message Input))
    (st : state) : option (list (event Input) * World) :=
  match loop fuel r messages st with
  | None => None
  | Some (Ok tt, st') => Some (written st', world st')
  | Some (Throw msg, st') =>
      match send (EvError msg) st' with
      | (_, st'') => Some (written st'', world st'')
      end
  end.

(** The handler of [POST /api/chat] on the body [{ message, history }]. *)
Definition chat (fuel : nat) (r : registry) (message : string)
    (history : list (Server.message Input)) (w : World)
  : option (list (event Input) * World) :=
  let messages := (history ++ [Message user (Str message)])%list in
  try_loop fuel r messages {| world := w; written := [] |}.

End AgentLoop.
Arguments state : clear implicits.
Arguments M : clear implicits.
Arguments round_end : clear implicits.

End Server.

(** ** Concrete providers and engines

    The two providers as [server.js] spawns them, a reasoning engine that
    plays a fixed script of answers, and one that asks for a tool at every
    query.  They instantiate the agent loop in the examples below. *)

Module Scenario.
Import Js Mcp Server.

(** The answer of todo-storage's [ListToolsRequestSchema] handler (schemas
    abridged to the names of their properties). *)
Definition storage_tools : list mcp_tool :=
  [ McpTool "create_todo" "Create a new todo item and save it to storage"
            "title, description, priority, due_date; required: title";
    McpTool "list_todos" "List todos, optionally filtered by status or priority"
            "status, priority";
    McpTool "update_todo" "Update fields on an existing todo by its ID"
            "id, title, description, priority, due_date; required: id";
    McpTool "complete_todo" "Mark a todo as completed" "id; required: id";
    McpTool "delete_todo" "Permanently delete a todo by its ID" "id; required: id" ].

(** The answer of todo-ai's [ListToolsRequestSchema] handler. *)
Definition ai_tools : list mcp_tool :=
  [ McpTool "prioritize_todos"
      "AI-powered: analyze and rank all pending todos by urgency and importance, with reasoning for each rank"
      "";
    McpTool "summarize_todos"
      "AI-powered: generate a concise productivity summary — completion rate, deadlines, workload, key insights"
      "";
    McpTool "suggest_next_todo"
      "AI-powered: recommend the single best todo to work on right now, with reasoning"
      "";
    McpTool "categorize_todos"
      "AI-powered: group todos into 2–4 logical themes or categories"
      "" ].

Definition storage_proc : provider_process :=
  {| connects := true; tools := Some storage_tools |}.

Definition ai_proc : provider_process :=
  {| connects := true; tools := Some ai_tools |}.

(** The registry [initMCP] builds from the two providers. *)
Definition the_registry : registry :=
  foldl (register ai) (foldl (register storage) empty_registry storage_tools) ai_tools.

(** A second provider that also offers [list_todos]. *)
Definition clashing_proc : provider_process :=
  {| connects := true;
     tools := Some [McpTool "list_todos" "AI-powered: list what matters" ""] |}.

Definition the_clock : TodoStorage.clock :=
  {| TodoStorage.now_ms := "1001"; TodoStorage.now_iso := "2026-01-01T00:00:00.000Z" |}.

(** todo-ai's handler with its two guards, up to its call of the text
    model, whose answer is fixed here. *)
Definition ai_handler (name : string) (f : TodoStorage.file) : outcome call_result :=
  let todos := TodoStorage.readTodos f in
  let pending := List.filter (fun t => negb (TodoStorage.completed t)) todos in
  if Nat.eqb (length todos) 0 then Ok (text_result "No todos found. Add some first!")
  else if ((String.eqb name "prioritize_todos" || String.eqb name "suggest_next_todo")
           && Nat.eqb (length pending) 0)%bool
  then Ok (text_result "All todos are completed — nothing left to analyze!")
  else if (String.eqb name "prioritize_todos" || String.eqb name "summarize_todos"
           || String.eqb name "suggest_next_todo" || String.eqb name "categorize_todos")%bool
  then Ok (text_result "analysis")
  else Throw ("Unknown tool: " +:+ name).

(** What [client.callTool] makes of the handler's outcome: an error thrown
    by the handler reaches the caller as the client's error, whose message
    carries the protocol's prefix. *)
Definition through_client (o : outcome call_result) : outcome call_result :=
  match o with
  | Ok result => Ok result
  | Throw message => Throw ("MCP error -32603: " +:+ message)
  end.

(** The world of the scripted scenario: the data file and the answers the
    engine has yet to give. *)
Record scripted : Type := Scripted {
  data : TodoStorage.file;
  script : list (outcome (response args))
}.

(** An engine that plays its script, and is unreachable once it is over. *)
Definition scripted_engine (messages : list (message args)) (decls : list tool_decl)
    (w : scripted) : outcome (response args) * scripted :=
  match script w with
  | [] => (Throw "Connection error.", w)
  | answer :: rest => (answer, {| data := data w; script := rest |})
  end.

Definition provider_call (server : server_id) (name : string) (a : args) (w : scripted)
  : outcome call_result * scripted :=
  match server with
  | storage =>
      let '(o, f) := TodoStorage.handler the_clock name a (data w) in
      (through_client o, {| data := f; script := script w |})
  | ai => (through_client (ai_handler name (data w)), w)
  end.

#[export] Instance scripted_backend : Backend args scripted :=
  {| messages_create := scripted_engine; callTool := provider_call |}.

(** An engine that asks for [list_todos] at every query. *)
Definition insistent_engine (messages : list (message args)) (decls : list tool_decl)
    (f : TodoStorage.file) : outcome (response args) * TodoStorage.file :=
  (Ok {| stop_reason := "tool_use";
         resp_content := [ToolUse "toolu_1" "list_todos" ∅] |}, f).

#[export] Instance insistent_backend : Backend args TodoStorage.file :=
  {| messages_create := insistent_engine;
     callTool := fun server name a f =>
       match server with
       | storage =>
           let '(o, f') := TodoStorage.handler the_clock name a f in
           (through_client o, f')
       | ai => (through_client (ai_handler name f), f)
       end |}.

(** The engine's answers used in the examples. *)
Definition ask (blocks : list (block args)) : outcome (response args) :=
  Ok {| stop_reason := "tool_use"; resp_content := blocks |}.

Definition answer (text : string) : outcome (response args) :=
  Ok {| stop_reason := "end_turn"; resp_content := [Text text] |}.

Definition buy_milk : args := {[ "title" := "buy milk" ]}.

(** The storage provider's answer to creating it at [the_clock]. *)
Definition milk_created : string :=
  "Created todo " +:+ TodoStorage.quote +:+ "buy milk" +:+ TodoStorage.quote
    +:+ " with ID 1001".

Definition a_todo (i : string) (t : string) (p : string) (c : bool) : TodoStorage.todo :=
  {| TodoStorage.id := i; TodoStorage.title := Some t; TodoStorage.description := "";
     TodoStorage.priority := p; TodoStorage.due_date := None;
     TodoStorage.completed := c; TodoStorage.created_at := "2026-01-01T00:00:00.000Z";
     TodoStorage.updated_at := None; TodoStorage.completed_at := None |}.

Definition some_todos : list TodoStorage.todo :=
  [ a_todo "1" "buy milk" "high" false;
    a_todo "2" "call mum" "medium" true;
    a_todo "3" "pay rent" "high" true ].

(** A stored list with a todo that has a due date and a description. *)
Definition dated_todos : list TodoStorage.todo :=
  [ a_todo "1" "buy milk" "high" false;
    a_todo "2" "call mum" "medium" false;
    a_todo "3" "pay rent" "high" true;
    {| TodoStorage.id := "4"; TodoStorage.title := Some "file taxes";
       TodoStorage.description := "before noon"; TodoStorage.priority := "high";
       TodoStorage.due_date := Some "2026-02-28"; TodoStorage.completed := false;
       TodoStorage.created_at := "2026-01-02T00:00:00.000Z";
       TodoStorage.updated_at := None; TodoStorage.completed_at := None |} ].

(** The worlds of the examples: an empty data directory and a script. *)
Definition milk_world : scripted :=
  {| data := None;
     script := [ask [ToolUse "toolu_1" "create_todo" buy_milk]; answer "Added!"] |}.

Definition unknown_tool_world : scripted :=
  {| data := None;
     script := [ask [ToolUse "toolu_1" "archive_todo" ∅; ToolUse "toolu_2" "list_todos" ∅];
                answer "Done."] |}.

Definition second_fails_world : scripted :=
  {| data := None;
     script := [ask [ToolUse "toolu_1" "list_todos" ∅; ToolUse "toolu_2" "archive_todo" ∅];
                answer "Done."] |}.

Definition two_calls_world : scripted :=
  {| data := None;
     script := [ask [Text "Adding it, then listing.";
                     ToolUse "toolu_1" "create_todo" buy_milk;
                     ToolUse "toolu_2" "list_todos" ∅];
                answer "Done."] |}.

(** A second round that asks for a tool nobody registered. *)
Definition late_failure_world : scripted :=
  {| data := None;
     script := [ask [ToolUse "toolu_1" "list_todos" ∅];
                ask [ToolUse "toolu_2" "archive_todo" ∅; ToolUse "toolu_3" "list_todos" ∅];
                answer "Done."] |}.

(** An engine that is unreachable from its second query on. *)
Definition drops_world : scripted :=
  {| data := None; script := [ask [ToolUse "toolu_1" "list_todos" ∅]] |}.

(** A provider whose result holds an image before its text. *)
Definition camera_backend : Backend args scripted :=
  {| messages_create := scripted_engine;
     callTool := fun _ _ _ w =>
       (Ok {| Mcp.content := [ {| seg_type := "image"; seg_text := None |};
                               text_segment "caption" ] |}, w) |}.

Definition greeting_world : scripted :=
  {| data := Some some_todos; script := [answer "Hello!"] |}.

Definition offline_world : scripted :=
  {| data := Some some_todos; script := [] |}.

End Scenario.


(** ** server.js: the routes that bypass the agent loop *)

Module Routes.
Import Js TodoStorage.

Inductive json_body : Type :=
| OkTrue                          (* [{ ok: true }] *)
| Todos (todos : list todo)       (* the parsed array *)
| ErrorBody (message : string).   (* [{ error: message }] *)

(** [res.status(status).json(body)]; [res.json] alone answers 200. *)
Record http_response : Type := HttpResponse {
  status : nat;
  body : json_body
}.

(** [JSON.parse(await fs.readFile(DATA_FILE, 'utf-8'))]: it throws on a file
    that is missing or does not parse, [read_error] being the message of
    the error thrown then. *)
Definition read_file (read_error : string) (f : file) : outcome (list todo) :=
  match f with
  | Some todos => Ok todos
  | None => Throw read_error
  end.

(** [GET /api/todos] *)
Definition get_todos (read_error : string) (f : file) : http_response :=
  match read_file read_error f with
  | Ok todos => {| status := 200; body := Todos todos |}
  | Throw _ => {| status := 200; body := Todos [] |}
  end.

(** [POST /api/todos/:id/complete] *)
Definition post_complete (clk : clock) (read_error : string) (ident : string) (f : file)
  : http_response * file :=
  match read_file read_error f with
  | Ok todos =>
      match findIndex (fun t => String.eqb (id t) ident) todos with
      | None => ({| status := 404; body := ErrorBody "Not found" |}, f)
      | Some idx =>
          let todos := alter (set_completed (now_iso clk)) idx todos in
          ({| status := 200; body := OkTrue |}, writeTodos todos)
      end
  | Throw message => ({| status := 500; body := ErrorBody message |}, f)
  end.

(** [DELETE /api/todos/:id] *)
Definition delete_route (read_error : string) (ident : string) (f : file)
  : http_response * file :=
  match read_file read_error f with
  | Ok todos =>
      match findIndex (fun t => String.eqb (id t) ident) todos with
      | None => ({| status := 404; body := ErrorBody "Not found" |}, f)
      | Some idx =>
          let todos := delete idx todos in
          ({| status := 200; body := OkTrue |}, writeTodos todos)
      end
  | Throw message => ({| status := 500; body := ErrorBody message |}, f)
  end.

End Routes.

(** ** servers/todo-ai.js *)

Module TodoAi.
Import Js Mcp TodoStorage.

(** The prompt sent to the text model, by the todos it is built from (the
    fixed wording of each prompt is left out; the statistics of the summary
    prompt are functions of the three lists). *)
Inductive prompt : Type :=
| Prioritize (pending : list todo)
| Summarize (todos completed pending : list todo)
| SuggestNext (pending : list todo)
| Categorize (todos : list todo).

(** The message of the [TypeError] of [res.content[0].text] on an empty
    [content]. *)
Definition no_first_block : string :=
  "Cannot read properties of undefined (reading 'text')".

(** [askClaude]: [create] is the call of [anthropic.messages.create] on the
    prompt, giving the [content] of the response; the result is the [text]
    property of its first block, which a block may lack. *)
Definition askClaude (create : prompt -> outcome (list segment)) (p : prompt)
  : outcome (option string) :=
  match create p with
  | Ok [] => Throw no_first_block
  | Ok (first :: _) => Ok (seg_text first)
  | Throw message => Throw message
  end.

Definition em_dash : string :=
  String "226"%char (String "128"%char (String "148"%char EmptyString)).

(** [{ content: [{ type: 'text', text: result }] }] *)
Definition answer (o : outcome (option string)) : outcome call_result :=
  match o with
  | Ok result => Ok {| content := [ {| seg_type := "text"; seg_text := result |} ] |}
  | Throw message => Throw message
  end.

(** The request handler for [CallToolRequestSchema].  It reads the data
    file and never writes it. *)
Definition handler (create : prompt -> outcome (list segment)) (name : string) (f : file)
  : outcome call_result :=
  let todos := readTodos f in
  let pending := List.filter (fun t => negb (completed t)) todos in
  if Nat.eqb (length todos) 0 then
    Ok (text_result "No todos found. Add some first!")
  else if ((String.eqb name "prioritize_todos" || String.eqb name "suggest_next_todo")
           && Nat.eqb (length pending) 0)%bool then
    Ok (text_result ("All todos are completed " +:+ em_dash
                       +:+ " nothing left to analyze!"))
  else if String.eqb name "prioritize_todos" then
    answer (askClaude create (Prioritize pending))
  else if String.eqb name "summarize_todos" then
    let completed := List.filter (fun t => completed t) todos in
    answer (askClaude create (Summarize todos completed pending))
  else if String.eqb name "suggest_next_todo" then
    answer (askClaude create (SuggestNext pending))
  else if String.eqb name "categorize_todos" then
    answer (askClaude create (Categorize todos))
  else
    Throw ("Unknown tool: " +:+ name).

End TodoAi.

(** ** The event stream on the wire: [send] in server.js, the reader of
    [sendMessage] in public/app.js *)

Module Sse.

(** [`data: ${json}\n\n`], what [send] writes for the serialized event. *)
Definition frame (json : string) : string :=
  "data: " +:+ json +:+ Js.newline +:+ Js.newline.

(** [s.split('\n')] *)
Fixpoint split (s : string) : list string :=
  match s with
  | EmptyString => [EmptyString]
  | String c s' =>
      if Ascii.eqb c "010" then EmptyString :: split s'
      else match split s' with
           | line :: lines => String c line :: lines
           | [] => [String c EmptyString]
           end
  end.

(** [line.slice(n)] *)
Fixpoint slice (n : nat) (line : string) : string :=
  match n, line with
  | O, _ => line
  | S n', String _ line' => slice n' line'
  | S _, EmptyString => EmptyString
  end.

(** [line.startsWith(p)] *)
Definition startsWith (p line : string) : bool := String.prefix p line.

(** What [JSON.parse] returns: [null], or any other value. *)
Inductive parsed (Evt : Type) : Type :=
| Value (evt : Evt)
| Null.
Arguments Value {Evt} evt.
Arguments Null {Evt}.

(** What the body of [for (const line of lines)] does with one line: it
    skips it, handles its event, or throws. *)
Inductive line_step (Evt : Type) : Type :=
| Skipped
| Handled (evt : Evt)
| Thrown.
Arguments Skipped {Evt}.
Arguments Handled {Evt} evt.
Arguments Thrown {Evt}.

Section Reader.
Context {Evt : Type}.

(** [JSON.parse], [None] when it throws. *)
Variable parse : string -> option (parsed Evt).

(** The body of [for (const line of lines)]: a line without the prefix and
    a line that does not parse are skipped; on a line that parses to
    [null], [evt.type] throws, outside the inner [try]. *)
Definition handle_line (line : string) : line_step Evt :=
  if startsWith "data: " line then
    match parse (slice 6 line) with
    | None => Skipped
    | Some (Value evt) => Handled evt
    | Some Null => Thrown
    end
  else Skipped.

(** [for (const line of lines)]: the events handled, in order, and whether
    the loop was left by a throw. *)
Fixpoint handle_lines (lines : list string) : list Evt * bool :=
  match lines with
  | [] => ([], false)
  | line :: rest =>
      match handle_line line with
      | Skipped => handle_lines rest
      | Handled evt => let '(evts, thrown) := handle_lines rest in (evt :: evts, thrown)
      | Thrown => ([], true)
      end
  end.

(** The reading loop of [sendMessage]: the events handled, in order, for
    the decoded chunks that [reader.read()] delivers before [done], from the
    buffer [buf].  A throw ends the reading: it is caught around the loop. *)
Fixpoint read_chunks (chunks : list string) (buf : string) : list Evt :=
  match chunks with
  | [] => []
  | value :: rest =>
      let buf := buf +:+ value in
      let lines := split buf in
      let buf := List.last lines EmptyString in
      let lines := List.removelast lines in
      let '(evts, thrown) := handle_lines lines in
      if thrown then evts else (evts ++ read_chunks rest buf)%list
  end.

End Reader.

(** No line feed occurs in [s]. *)
Fixpoint one_line (s : string) : bool :=
  match s with
  | EmptyString => true
  | String c s' => negb (Ascii.eqb c "010") && one_line s'
  end.

(** A stand-in for [JSON.stringify] and [JSON.parse] on events that are
    booleans. *)
Definition stringify_bool (b : bool) : string := if b then "true" else "false".

Definition parse_bool (s : string) : option (parsed bool) :=
  if String.eqb s "true" then Some (Value true)
  else if String.eqb s "false" then Some (Value false)
  else if String.eqb s "null" then Some Null
  else None.

End Sse.

(** ** Shapes of a turn's events and conversation *)

Module Trace.
Import Js Mcp Server.

Section Shapes.
Context {Input : Type}.

(** The two events of a dispatched call: its name, input and result. *)
Definition call_events (c : string * Input * string) : list (event Input) :=
  [EvToolCall c.1.1 c.1.2; EvToolResult c.1.1 c.2].

(** The two messages a tool round appends: the engine's content and the
    bundle of results. *)
Definition round_messages (rd : list (block Input) * list tool_result_block)
  : list (message Input) :=
  [Message assistant (Blocks rd.1); Message user (ToolResults rd.2)].

(** The [id] of a [tool_use] block. *)
Definition block_id (b : block Input) : option string :=
  match b with
  | ToolUse id _ _ => Some id
  | _ => None
  end.

End Shapes.

Section Rounds.
Context {Input World : Type} `{!Backend Input World}.

(** The tool rounds of a turn, told by what happened in them: from the
    [messages] and state at the start of a pass, each round is a query that
    the engine answers with stop reason [tool_use], followed by a dispatch
    of that answer's blocks that returns; the round is recorded as the
    answer's content and the results of the dispatch, and the next round
    starts from the messages with the round's two messages appended. *)
Inductive tool_rounds (r : registry) :
    list (message Input) -> state Input World ->
    list (list (block Input) * list tool_result_block) ->
    list (message Input) -> state Input World -> Prop :=
| rounds_over messages st : tool_rounds r messages st [] messages st
| rounds_next messages st resp w1 results st1 rds messages' st' :
    messages_create messages (allTools r) (world st) = (Ok resp, w1) ->
    stop_reason resp = "tool_use" ->
    for_blocks r (resp_content resp) [] {| world := w1; written := written st |}
    = (Ok results, st1) ->
    tool_rounds r (messages ++ round_messages (resp_content resp, results))%list st1
      rds messages' st' ->
    tool_rounds r messages st ((resp_content resp, results) :: rds) messages' st'.

End Rounds.
End Trace.

(** ** public/app.js: what the page keeps of a turn's events *)

Module Page.
Import Server.

(** An entry of [indicators]; the element [el] it points to is left out.
    [done] is undefined, hence falsy, until the result arrives. *)
Record indicator : Type := Indicator {
  ind_name : string;
  ind_done : bool
}.

(** Marks the first entry, from the front, that has the name and is not
    done. *)
Fixpoint mark_first (name : string) (l : list indicator) : list indicator :=
  match l with
  | [] => []
  | i :: l' =>
      if (String.eqb (ind_name i) name && negb (ind_done i))%bool
      then Indicator (ind_name i) true :: l'
      else i :: mark_first name l'
  end.

(** [indicators.findLast(i => i.name === name && !i.done)] and, when there
    is one, [ind.done = true]. *)
Definition mark_last (name : string) (indicators : list indicator) : list indicator :=
  rev (mark_first name (rev indicators)).

Section Handling.
Context {Input : Type}.

(** The state of the page that the events change: the global [history] and
    the [indicators] of the running [sendMessage]. *)
Record page : Type := PageState {
  history : list (message Input);
  indicators : list indicator
}.

(** The body of [for (const line of lines)] after the event is parsed. *)
Definition handle (p : page) (evt : event Input) : page :=
  match evt with
  | EvToolCall name _ =>
      {| history := history p;
         indicators := (indicators p ++ [Indicator name false])%list |}
  | EvToolResult name _ =>
      {| history := history p; indicators := mark_last name (indicators p) |}
  | EvResponse _ => p
  | EvDone messages => {| history := messages; indicators := indicators p |}
  | EvError _ => p
  end.

(** One [sendMessage]: it starts with no indicator and handles the events
    of the response in order. *)
Definition after_events (h : list (message Input)) (events : list (event Input)) : page :=
  foldl handle {| history := h; indicators := [] |} events.

End Handling.
Arguments page : clear implicits.

End Page.

(** * Properties of servers/todo-storage.js *)

Module TodoStorageFacts.
Import Js Mcp TodoStorage.

Lemma findIndex_None {A : Type} (p : A -> bool) (l : list A) :
  Forall (fun x => p x = false) l -> findIndex p l = None.
Proof.
  induction 1 as [|x l Hx _ IH]; simpl; [done|].
  by rewrite Hx, IH.
Qed.

Lemma strict_eq_absent (ident : string) (todos : list todo) :
  ident ∉ id <$> todos ->
  Forall (fun t => strict_eq (Some ident) (id t) = false) todos.
Proof.
  intros Hnot. apply Forall_forall. intros t Ht. simpl.
  apply String.eqb_neq. intros ->. apply Hnot.
  apply list_elem_of_fmap. by exists t.
Qed.

(** C9.  For every stored list and every id that no stored todo has,
    [update_todo], [complete_todo] and [delete_todo] called with that id
    answer the text [No todo found with ID <id>] and leave the data file
    as it was: nothing is written on the not-found branch. *)
Theorem not_found_changes_nothing (clk : clock) (name ident : string)
    (a : args) (f : file) :
  name ∈ ["update_todo"; "complete_todo"; "delete_todo"] ->
  a !! "id" = Some ident ->
  ident ∉ id <$> readTodos f ->
  handler clk name a f = (Ok (text_result ("No todo found with ID " +:+ ident)), f).
Proof.
  intros Hname Hid Habsent.
  pose proof (findIndex_None _ _ (strict_eq_absent _ _ Habsent)) as Hfind.
  unfold handler. rewrite Hid.
  repeat (apply elem_of_cons in Hname as [-> | Hname]);
    [| | | by apply elem_of_nil in Hname]; simpl in *; by rewrite Hfind.
Qed.

Lemma not_found_changes_nothing_witness :
  handler Scenario.the_clock "delete_todo" {[ "id" := "7" ]} (Some Scenario.some_todos)
  = (Ok (text_result "No todo found with ID 7"), Some Scenario.some_todos).
Proof.
  apply (not_found_changes_nothing Scenario.the_clock "delete_todo" "7").
  - set_solver.
  - reflexivity.
  - vm_compute. intros H. repeat (apply elem_of_cons in H as [H | H]; [discriminate H|]).
    by apply elem_of_nil in H.
Defined.

Lemma filter_twice {A : Type} (p q : A -> bool) (l : list A) :
  List.filter q (List.filter p l) = List.filter (fun x => p x && q x) l.
Proof.
  induction l as [|x l IH]; simpl; [done|].
  destruct (p x); simpl; [|done].
  destruct (q x); by rewrite IH.
Qed.

Lemma filter_all {A : Type} (l : list A) : List.filter (fun _ => true) l = l.
Proof. induction l as [|x l IH]; simpl; congruence. Qed.

(** The two status tests of the handler, run one after the other, keep what
    [status_selects] keeps. *)
Lemma status_filter_selects (status : option string) (todos : list todo) :
  status_filter status todos = List.filter (status_selects status) todos.
Proof.
  unfold status_filter, status_selects.
  destruct status as [s|]; simpl; [|by rewrite filter_all].
  destruct (String.eqb_spec s "pending") as [->|_]; simpl; [done|].
  destruct (String.eqb s "completed"); [|by rewrite filter_all].
  apply List.filter_ext. done.
Qed.

Lemma priority_filter_selects (prio : option string) (todos : list todo) :
  priority_filter prio todos = List.filter (priority_selects prio) todos.
Proof.
  unfold priority_filter, priority_selects.
  destruct prio as [[|c p]|]; simpl; by rewrite ?filter_all.
Qed.

Lemma filters_select (status prio : option string) (todos : list todo) :
  priority_filter prio (status_filter status todos)
  = List.filter (selected status prio) todos.
Proof.
  rewrite status_filter_selects, priority_filter_selects. apply filter_twice.
Qed.

(** The handler's line is the line written out above. *)
Lemma format_line_shown (t : todo) : format_line t = shown_line t.
Proof.
  unfold format_line, shown_line.
  by destruct (completed t), (title t), (due_date t) as [[|c d]|],
    (description t) as [|c' d'].
Qed.

(** [lines.join] puts one line feed between two lines. *)
Lemma join_lines_shown (todos : list todo) :
  join_lines (map format_line todos)
  = String.concat (String "010"%char EmptyString) (map shown_line todos).
Proof.
  unfold join_lines.
  by rewrite (List.map_ext _ _ format_line_shown).
Qed.

(** C10.  For every data file and every [status] and [priority] argument,
    [list_todos] leaves the data file as it was, and its text is the lines,
    in stored order, of exactly the todos that pass the status filter
    ([pending] leaves out the completed ones, [completed] keeps only them,
    anything else keeps all) and the priority filter when a priority is
    given; it is [No todos match the filter.] when no todo passes. *)
Theorem list_todos_lists_selected (clk : clock) (a : args) (f : file) :
  handler clk "list_todos" a f
  = (Ok (text_result (listing (a !! "status") (a !! "priority") (readTodos f))), f).
Proof.
  unfold handler, listing. simpl String.eqb. cbv iota.
  rewrite filters_select.
  destruct (List.filter _ (readTodos f)) as [|t matching] eqn:Hsel; [done|].
  cbn [length Nat.eqb]. by rewrite join_lines_shown.
Qed.

Lemma list_todos_lists_selected_witness :
  handler Scenario.the_clock "list_todos" {[ "status" := "pending"; "priority" := "high" ]}
    (Some Scenario.dated_todos)
  = (Ok (text_result "[1] ○ buy milk | high priority
[4] ○ file taxes | high priority | due 2026-02-28 | before noon"),
     Some Scenario.dated_todos).
Proof.
  rewrite (list_todos_lists_selected Scenario.the_clock
             {[ "status" := "pending"; "priority" := "high" ]}
             (Some Scenario.dated_todos)).
  reflexivity.
Defined.

(** The lines of a listing are those of the selected todos, one per todo
    and in the order of the file. *)
Lemma listing_lines (status prio : option string) (todos : list todo) :
  List.filter (selected status prio) todos <> [] ->
  listing status prio todos
  = join_lines (format_line <$> List.filter (selected status prio) todos).
Proof.
  unfold listing. destruct (List.filter _ todos); [done|].
  intros _. symmetry. apply join_lines_shown.
Qed.

(** An empty [priority] string is falsy and filters nothing. *)
Example list_todos_empty_priority :
  handler Scenario.the_clock "list_todos" {[ "priority" := "" ]} (Some Scenario.some_todos)
  = handler Scenario.the_clock "list_todos" ∅ (Some Scenario.some_todos).
Proof. reflexivity. Qed.

Example list_todos_completed_high :
  handler Scenario.the_clock "list_todos"
    {[ "status" := "completed"; "priority" := "high" ]} (Some Scenario.some_todos)
  = (Ok (text_result ("[3] " +:+ check_mark +:+ " pay rent | high priority")),
     Some Scenario.some_todos).
Proof. reflexivity. Qed.

Example list_todos_none_match :
  handler Scenario.the_clock "list_todos" {[ "priority" := "low" ]} (Some Scenario.some_todos)
  = (Ok (text_result "No todos match the filter."), Some Scenario.some_todos).
Proof. reflexivity. Qed.

End TodoStorageFacts.

(** * Properties of server.js *)

Module ServerFacts.
Import Js Mcp Server.

Section Loop.
Context {Input World : Type} `{!Backend Input World}.

Implicit Types (r : registry) (st : state Input World) (w : World).
Implicit Types (messages history : list (message Input)).
Implicit Types (blocks pre rest : list (block Input)).

(** Unfolds the sequencing of the handler's computations. *)
Ltac run :=
  unfold mbind, M_bind, bind, mret, M_ret, ret, send, await; simpl.

(** *** [callMCPTool] *)

Lemma callMCPTool_unknown r name (args : Input) w :
  toolServerMap r !! name = None ->
  callMCPTool r name args w
  = (Throw ("No MCP server registered for tool: " +:+ name), w).
Proof. intros Hnone. unfold callMCPTool. by rewrite Hnone. Qed.

Lemma callMCPTool_rejected r name (args : Input) w server msg w' :
  toolServerMap r !! name = Some server ->
  callTool server name args w = (Throw msg, w') ->
  callMCPTool r name args w = (Throw msg, w').
Proof. intros Hroute Hcall. unfold callMCPTool. by rewrite Hroute, Hcall. Qed.

Lemma call_fails_throws r name (args : Input) w msg w' :
  call_fails r name args w msg w' ->
  callMCPTool r name args w = (Throw msg, w').
Proof.
  intros [(Hnone & -> & ->) | (server & Hroute & Hcall)].
  - by apply callMCPTool_unknown.
  - by eapply callMCPTool_rejected.
Qed.

(** C5.  For every call that the provider answers with a result,
    [callMCPTool] returns the text of the first segment of the result's
    content when that segment has one; it returns the empty string when
    the content is empty, and when the first segment has no text, whatever
    the segments after it hold; so it does when no segment has a text. *)
Theorem callMCPTool_first_segment r name (args : Input) w server result w' :
  toolServerMap r !! name = Some server ->
  callTool server name args w = (Ok result, w') ->
  (forall seg others text,
      Mcp.content result = seg :: others -> seg_text seg = Some text ->
      callMCPTool r name args w = (Ok text, w'))
  /\ (Mcp.content result = [] -> callMCPTool r name args w = (Ok "", w'))
  /\ (forall seg others,
         Mcp.content result = seg :: others -> seg_text seg = None ->
         callMCPTool r name args w = (Ok "", w'))
  /\ (Forall (fun seg => seg_text seg = None) (Mcp.content result) ->
      callMCPTool r name args w = (Ok "", w')).
Proof.
  intros Hroute Hcall. unfold callMCPTool. rewrite Hroute, Hcall.
  split; [|split; [|split]].
  - intros seg others text -> Htext. by rewrite Htext.
  - by intros ->.
  - intros seg others -> Hnone. by rewrite Hnone.
  - intros Hnone. destruct (Mcp.content result) as [|seg others]; [done|].
    apply Forall_cons in Hnone as [-> _]. done.
Qed.

(** *** The dispatch loop over the blocks of one response *)

Lemma for_blocks_app r pre rest acc st :
  for_blocks r (pre ++ rest) acc st
  = match for_blocks r pre acc st with
    | (Ok acc', st') => for_blocks r rest acc' st'
    | (Throw msg, st') => (Throw msg, st')
    end.
Proof.
  revert acc st. induction pre as [|b pre IH]; intros acc st; simpl; [done|].
  destruct b as [text|id name input|type]; try apply IH.
  run. destruct (callMCPTool r name input (world st)) as [[result|msg] w']; simpl; [|done].
  apply IH.
Qed.

(** Blocks that are not of type [tool_use] are skipped. *)
Lemma for_blocks_filter r blocks acc st :
  for_blocks r blocks acc st = for_blocks r (List.filter is_tool_use blocks) acc st.
Proof.
  revert acc st. induction blocks as [|b blocks IH]; intros acc st; simpl; [done|].
  destruct b as [text|id name input|type]; simpl; try apply IH.
  run. destruct (callMCPTool r name input (world st)) as [[result|msg] w']; simpl; [|done].
  apply IH.
Qed.

(** What the dispatch loop writes are [tool_call] and [tool_result] events,
    after what was written before. *)
Lemma for_blocks_written r blocks acc st o st' :
  for_blocks r blocks acc st = (o, st') ->
  exists evs, written st' = (written st ++ evs)%list
              /\ forallb is_tool_event evs = true.
Proof.
  revert acc st. induction blocks as [|b blocks IH]; intros acc st; simpl.
  - intros [= <- <-]. exists []. by rewrite app_nil_r.
  - destruct b as [text|id name input|type]; try apply IH.
    run. destruct (callMCPTool r name input (world st)) as [[result|msg] w']; simpl.
    + intros Hrest. apply IH in Hrest as (evs & Hw & Hevs). simpl in Hw.
      exists (EvToolCall name input :: EvToolResult name result :: evs).
      split; [|done]. rewrite Hw. by rewrite <- !app_assoc.
    + intros [= <- <-]. simpl. exists [EvToolCall name input]. done.
Qed.

(** *** One pass through the loop body *)

Lemma loop_body_engine_throws r messages st msg w1 :
  messages_create messages (allTools r) (world st) = (Throw msg, w1) ->
  loop_body r messages st = (Throw msg, {| world := w1; written := written st |}).
Proof. intros Hq. unfold loop_body. run. by rewrite Hq. Qed.

Lemma loop_body_answer r messages st resp w1 :
  messages_create messages (allTools r) (world st) = (Ok resp, w1) ->
  stop_reason resp <> "tool_use" ->
  loop_body r messages st
  = (Ok Break,
     {| world := w1;
        written := written st ++
          [EvResponse (first_text (resp_content resp));
           EvDone (messages ++ [Message assistant (Blocks (resp_content resp))])] |}).
Proof.
  intros Hq Hstop. unfold loop_body. run. rewrite Hq. simpl.
  apply String.eqb_neq in Hstop. rewrite Hstop. simpl.
  by rewrite <- app_assoc.
Qed.

Lemma loop_body_tool_use r messages st resp w1 :
  messages_create messages (allTools r) (world st) = (Ok resp, w1) ->
  stop_reason resp = "tool_use" ->
  loop_body r messages st
  = match for_blocks r (resp_content resp) [] {| world := w1; written := written st |} with
    | (Ok toolResults, st') =>
        (Ok (Continue (messages ++ [Message assistant (Blocks (resp_content resp));
                                    Message user (ToolResults toolResults)])), st')
    | (Throw msg, st') => (Throw msg, st')
    end.
Proof.
  intros Hq Hstop. unfold loop_body. run. rewrite Hq. simpl.
  rewrite Hstop. simpl.
  destruct (for_blocks r (resp_content resp) [] _) as [[toolResults|msg] st']; [|done].
  by rewrite <- app_assoc.
Qed.

(** A pass that does not reach [break] has written tool events only. *)
Lemma loop_body_written r messages st o st' :
  loop_body r messages st = (o, st') ->
  o <> Ok Break ->
  exists evs, written st' = (written st ++ evs)%list
              /\ forallb is_tool_event evs = true.
Proof.
  intros Hbody Hnot.
  destruct (messages_create messages (allTools r) (world st)) as [[resp|msg] w1] eqn:Hq.
  - destruct (String.eqb_spec (stop_reason resp) "tool_use") as [Hstop|Hstop].
    + rewrite (loop_body_tool_use _ _ _ _ _ Hq Hstop) in Hbody.
      destruct (for_blocks r (resp_content resp) [] _) as [o' st1] eqn:Hfor.
      apply for_blocks_written in Hfor as (evs & Hw & Hevs).
      exists evs. by destruct o'; injection Hbody as <- <-.
    + rewrite (loop_body_answer _ _ _ _ _ Hq Hstop) in Hbody.
      by injection Hbody as <- <-.
  - rewrite (loop_body_engine_throws _ _ _ _ _ Hq) in Hbody.
    injection Hbody as <- <-. exists []. by rewrite app_nil_r.
Qed.

(** A loop that ends in a throw has written tool events only. *)
Lemma loop_throw_written fuel r messages st msg st' :
  loop fuel r messages st = Some (Throw msg, st') ->
  exists evs, written st' = (written st ++ evs)%list
              /\ forallb is_tool_event evs = true.
Proof.
  revert messages st. induction fuel as [|fuel IH]; intros messages st; simpl; [done|].
  destruct (loop_body r messages st) as [[[messages1|]|msg1] st1] eqn:Hbody.
  - intros Hloop. apply IH in Hloop as (evs2 & Hw2 & Hevs2).
    apply loop_body_written in Hbody as (evs1 & Hw1 & Hevs1); [|done].
    exists (evs1 ++ evs2)%list. split.
    + by rewrite Hw2, Hw1, app_assoc.
    + rewrite forallb_app. by rewrite Hevs1, Hevs2.
  - done.
  - intros [= <- <-]. by apply loop_body_written in Hbody.
Qed.

Lemma tool_events_filter (evs : list (event Input)) :
  forallb is_tool_event evs = true ->
  List.filter is_error evs = [] /\ List.filter is_done evs = [].
Proof.
  induction evs as [|e evs IH]; simpl; [done|].
  intros [He Hevs]%andb_prop. destruct (IH Hevs) as [-> ->].
  by destruct e.
Qed.

(** *** The claims on the agent loop *)

(** Passes that reach the end of the loop body are passes of the loop. *)
Lemma rounds_then_loop n fuel r messages st messages' st' :
  rounds n r messages st = Some (messages', st') ->
  loop (n + fuel) r messages st = loop fuel r messages' st'.
Proof.
  revert messages st. induction n as [|n IH]; intros messages st; simpl.
  - by intros [= -> ->].
  - destruct (loop_body r messages st) as [[[messages1|]|msg1] st1]; [|done..].
    apply IH.
Qed.

(** They have written tool events only. *)
Lemma rounds_written n r messages st messages' st' :
  rounds n r messages st = Some (messages', st') ->
  exists evs, written st' = (written st ++ evs)%list
              /\ forallb is_tool_event evs = true.
Proof.
  revert messages st. induction n as [|n IH]; intros messages st; simpl.
  - intros [= -> ->]. exists []. by rewrite app_nil_r.
  - destruct (loop_body r messages st) as [[[messages1|]|msg1] st1] eqn:Hbody; [|done..].
    intros Hrounds. apply IH in Hrounds as (evs2 & Hw2 & Hevs2).
    apply loop_body_written in Hbody as (evs1 & Hw1 & Hevs1); [|done].
    exists (evs1 ++ evs2)%list. split.
    + by rewrite Hw2, Hw1, app_assoc.
    + rewrite forallb_app. by rewrite Hevs1, Hevs2.
Qed.

(** C1, as the code has it.  In any round of a turn, after any number of
    rounds that dispatched all their calls, when the call of one tool-use
    block fails (its name has no route, or the provider rejects the call)
    after the blocks before it were dispatched, the handler has written
    that block's [tool_call] event, writes no [tool_result] for it but one
    top-level [error] event with the failure's message, the only one of
    the stream, and ends the stream there: the blocks after it are not
    dispatched and the engine is not queried again. *)
Theorem failed_call_ends_turn n fuel r message history w messages st resp w1
    pre id name (input : Input) rest toolResults st2 msg w3 :
  rounds n r (history ++ [Message user (Str message)]) {| world := w; written := [] |}
  = Some (messages, st) ->
  messages_create messages (allTools r) (world st) = (Ok resp, w1) ->
  stop_reason resp = "tool_use" ->
  resp_content resp = (pre ++ ToolUse id name input :: rest)%list ->
  for_blocks r pre [] {| world := w1; written := written st |} = (Ok toolResults, st2) ->
  call_fails r name input (world st2) msg w3 ->
  chat (n + S fuel) r message history w
  = Some ((written st2 ++ [EvToolCall name input; EvError msg])%list, w3)
  /\ forallb is_tool_event (written st2) = true.
Proof.
  intros Hrounds Hq Hstop Hcontent Hpre Hfail. split.
  - apply call_fails_throws in Hfail.
    unfold chat, try_loop. rewrite (rounds_then_loop _ _ _ _ _ _ _ Hrounds).
    cbn [loop].
    rewrite (loop_body_tool_use _ _ _ _ _ Hq Hstop), Hcontent, for_blocks_app, Hpre.
    simpl. run. rewrite Hfail. simpl. by rewrite <- app_assoc.
  - apply rounds_written in Hrounds as (evs1 & Hw1 & Hevs1).
    apply for_blocks_written in Hpre as (evs2 & Hw2 & Hevs2).
    simpl in Hw1, Hw2. rewrite Hw2, Hw1. by rewrite forallb_app, Hevs1, Hevs2.
Qed.

(** C3, as the code has it.  In a pass whose response asks for the tools
    [A] then [B], when both calls return, the events written in that pass
    are exactly [tool_call A], [tool_result A], [tool_call B],
    [tool_result B], [B] being called in the world that [A]'s call left,
    and the pass goes on to the next query with both results appended. *)
Theorem two_calls_in_order r messages st resp w1 idA nameA (inputA : Input)
    idB nameB (inputB : Input) resultA w2 resultB w3 :
  messages_create messages (allTools r) (world st) = (Ok resp, w1) ->
  stop_reason resp = "tool_use" ->
  List.filter is_tool_use (resp_content resp)
  = [ToolUse idA nameA inputA; ToolUse idB nameB inputB] ->
  callMCPTool r nameA inputA w1 = (Ok resultA, w2) ->
  callMCPTool r nameB inputB w2 = (Ok resultB, w3) ->
  loop_body r messages st
  = (Ok (Continue (messages ++
           [Message assistant (Blocks (resp_content resp));
            Message user (ToolResults [ToolResult idA resultA; ToolResult idB resultB])])),
     {| world := w3;
        written := written st ++
          [EvToolCall nameA inputA; EvToolResult nameA resultA;
           EvToolCall nameB inputB; EvToolResult nameB resultB] |}).
Proof.
  intros Hq Hstop Hblocks HA HB.
  rewrite (loop_body_tool_use _ _ _ _ _ Hq Hstop), for_blocks_filter, Hblocks.
  simpl. run. rewrite HA. simpl. rewrite HB. simpl.
  by rewrite <- !app_assoc.
Qed.

(** C4.  For every turn in which the engine's first response is a plain
    answer (its stop reason is not [tool_use]), the events of the turn are
    exactly one [response] event with the answer's text followed by one
    [done] event carrying the history, the new user message and the
    answer; no [tool_call] and no [tool_result] is written. *)
Theorem plain_answer_events fuel r message history w resp w1 :
  messages_create (history ++ [Message user (Str message)]) (allTools r) w = (Ok resp, w1) ->
  stop_reason resp <> "tool_use" ->
  chat (S fuel) r message history w
  = Some ([EvResponse (first_text (resp_content resp));
           EvDone (history ++ [Message user (Str message);
                               Message assistant (Blocks (resp_content resp))])], w1).
Proof.
  intros Hq Hstop. unfold chat, try_loop. simpl loop.
  rewrite (loop_body_answer _ _ {| world := w; written := [] |} _ _ Hq Hstop).
  simpl. by rewrite <- app_assoc.
Qed.

(** C6.  For every turn in which a query of the reasoning engine fails,
    in the first round or after any number of rounds that dispatched all
    their calls, the loop stops there: the handler writes exactly one
    [error] event, with the failure's message, as the last event of the
    stream after the tool events of the rounds before, and the stream ends
    without any [done] event. *)
Theorem fatal_error_events n fuel r message history w messages st msg w1 :
  rounds n r (history ++ [Message user (Str message)]) {| world := w; written := [] |}
  = Some (messages, st) ->
  messages_create messages (allTools r) (world st) = (Throw msg, w1) ->
  chat (n + S fuel) r message history w
  = Some ((written st ++ [EvError msg])%list, w1)
  /\ forallb is_tool_event (written st) = true
  /\ last (written st ++ [EvError msg]) = Some (EvError msg)
  /\ length (List.filter is_error (written st ++ [EvError msg])) = 1
  /\ List.filter is_done (written st ++ [EvError msg]) = [].
Proof.
  intros Hrounds Hq.
  assert (forallb is_tool_event (written st) = true) as Hevs.
  { apply rounds_written in Hrounds as (evs & Hw & Hevs). simpl in Hw. by rewrite Hw. }
  split; [|split; [done|]].
  - unfold chat, try_loop. rewrite (rounds_then_loop _ _ _ _ _ _ _ Hrounds).
    cbn [loop]. by rewrite (loop_body_engine_throws _ _ _ _ _ Hq).
  - apply tool_events_filter in Hevs as [Herr Hdone].
    by rewrite last_snoc, !List.filter_app, Herr, Hdone.
Qed.

(** C7, as the code has it.  The loop has no bound on its passes: it ends
    exactly when some pass, after any number of passes that dispatched all
    their calls, meets an engine query that throws, a plain answer, or a
    tool call that throws. *)
Theorem loop_ends_iff r messages st :
  (exists fuel o st', loop fuel r messages st = Some (o, st'))
  <-> (exists n messages1 st1,
          rounds n r messages st = Some (messages1, st1)
          /\ match messages_create messages1 (allTools r) (world st1) with
             | (Throw _, _) => True
             | (Ok resp, w1) =>
                 stop_reason resp <> "tool_use"
                 \/ exists msg st2,
                     for_blocks r (resp_content resp) []
                       {| world := w1; written := written st1 |} = (Throw msg, st2)
             end).
Proof.
  split.
  - intros (fuel & o & st' & Hloop). revert messages st Hloop.
    induction fuel as [|fuel IH]; intros messages st; simpl; [done|].
    destruct (loop_body r messages st) as [[[messages1|]|msg1] st1] eqn:Hbody.
    + intros Hloop. destruct (IH _ _ Hloop) as (n & m2 & st2 & Hrounds & Hstop).
      exists (S n), m2, st2. simpl. by rewrite Hbody.
    + intros _. exists 0, messages, st. split; [done|].
      destruct (messages_create messages (allTools r) (world st)) as [[resp|msg] w1] eqn:Hq; [|done].
      destruct (String.eqb_spec (stop_reason resp) "tool_use") as [Hstop|Hstop]; [|by left].
      rewrite (loop_body_tool_use _ _ _ _ _ Hq Hstop) in Hbody.
      by destruct (for_blocks r (resp_content resp) [] _) as [[?|?] ?].
    + intros _. exists 0, messages, st. split; [done|].
      destruct (messages_create messages (allTools r) (world st)) as [[resp|msg] w1] eqn:Hq; [|done].
      destruct (String.eqb_spec (stop_reason resp) "tool_use") as [Hstop|Hstop]; [|by left].
      rewrite (loop_body_tool_use _ _ _ _ _ Hq Hstop) in Hbody. right.
      destruct (for_blocks r (resp_content resp) [] _) as [[?|msg2] st2]; [done|].
      by exists msg2, st2.
  - intros (n & m1 & st1 & Hrounds & Hstop). revert messages st Hrounds.
    induction n as [|n IH]; intros messages st; simpl.
    + intros [= -> ->]. exists 1. simpl.
      destruct (messages_create m1 (allTools r) (world st1)) as [[resp|msg] w1] eqn:Hq.
      * destruct Hstop as [Hstop|(msg & st2 & Hfor)].
        -- rewrite (loop_body_answer _ _ _ _ _ Hq Hstop). eauto.
        -- destruct (String.eqb_spec (stop_reason resp) "tool_use") as [Htool|Htool].
           ++ rewrite (loop_body_tool_use _ _ _ _ _ Hq Htool), Hfor. eauto.
           ++ rewrite (loop_body_answer _ _ _ _ _ Hq Htool). eauto.
      * rewrite (loop_body_engine_throws _ _ _ _ _ Hq). eauto.
    + destruct (loop_body r messages st) as [[[messages2|]|msg2] st2] eqn:Hbody; [|done..].
      intros Hrounds. destruct (IH _ _ Hrounds) as (fuel & o & st' & Hloop).
      exists (S fuel), o, st'. simpl. by rewrite Hbody.
Qed.

(** C8, as the code has it.  For every turn of one pass with one tool call
    followed by a plain answer, the events are [tool_call], [tool_result]
    with the provider's text, [response] with the answer's text, then
    [done], whose conversation is the history followed by four messages:
    its length is the history's plus 4 (the length of the conversation the
    loop starts from, which already holds the new user message, plus 3). *)
Theorem one_call_then_answer fuel r message history w resp1 w1 id name
    (input : Input) text w2 resp2 w3 :
  messages_create (history ++ [Message user (Str message)]) (allTools r) w = (Ok resp1, w1) ->
  stop_reason resp1 = "tool_use" ->
  List.filter is_tool_use (resp_content resp1) = [ToolUse id name input] ->
  callMCPTool r name input w1 = (Ok text, w2) ->
  messages_create
    (history ++ [Message user (Str message);
                 Message assistant (Blocks (resp_content resp1));
                 Message user (ToolResults [ToolResult id text])])
    (allTools r) w2 = (Ok resp2, w3) ->
  stop_reason resp2 <> "tool_use" ->
  exists conversation,
    chat (S (S fuel)) r message history w
    = Some ([EvToolCall name input; EvToolResult name text;
             EvResponse (first_text (resp_content resp2)); EvDone conversation], w3)
    /\ conversation
       = (history ++ [Message user (Str message);
                      Message assistant (Blocks (resp_content resp1));
                      Message user (ToolResults [ToolResult id text]);
                      Message assistant (Blocks (resp_content resp2))])%list
    /\ length conversation = length history + 4
    /\ length conversation = length (history ++ [Message user (Str message)]) + 3.
Proof.
  intros Hq1 Hstop1 Hblocks Hcall Hq2 Hstop2.
  eexists. split; [|split; [reflexivity|]].
  - unfold chat, try_loop. simpl loop.
    rewrite (loop_body_tool_use _ _ {| world := w; written := [] |} _ _ Hq1 Hstop1).
    rewrite for_blocks_filter, Hblocks. simpl. run. rewrite Hcall. simpl.
    rewrite <- app_assoc. simpl.
    erewrite (loop_body_answer r _ {| world := w2; written := _ |} _ _ Hq2 Hstop2).
    simpl. by rewrite <- !app_assoc.
  - rewrite !length_app. simpl. lia.
Qed.

End Loop.

(** *** The registry that [initMCP] builds *)

Lemma foldl_register_lookup (server : server_id) (l : list mcp_tool)
    (r : registry) (n : string) :
  toolServerMap (foldl (register server) r l) !! n
  = if decide (n ∈ mt_name <$> l) then Some server else toolServerMap r !! n.
Proof.
  revert r. induction l as [|t l IH]; intros r; cbn [foldl].
  - rewrite fmap_nil, decide_False; [done|]. apply not_elem_of_nil.
  - rewrite IH, fmap_cons. cbn [register toolServerMap].
    destruct (decide (n ∈ mt_name <$> l)) as [Hl|Hl].
    + rewrite decide_True; [done|]. by apply elem_of_cons; right.
    + destruct (decide (n = mt_name t)) as [->|Hne].
      * rewrite lookup_insert_eq, decide_True; [done|]. by apply elem_of_cons; left.
      * rewrite lookup_insert_ne by done. rewrite decide_False; [done|].
        intros [?|?]%elem_of_cons; done.
Qed.

Lemma foldl_register_allTools (server : server_id) (l : list mcp_tool) (r : registry) :
  allTools (foldl (register server) r l)
  = (allTools r ++
     ((fun t => ToolDecl (mt_name t) (mt_description t) (mt_inputSchema t)) <$> l))%list.
Proof.
  revert r. induction l as [|t l IH]; intros r; simpl.
  - by rewrite app_nil_r.
  - rewrite IH. simpl. by rewrite <- app_assoc.
Qed.

(** C2, as the code has it.  Whenever both providers connect and answer
    [listTools], startup goes on to listen whatever names they offer: a
    name that both offer is not rejected.  Every name then has exactly one
    route, to [ai] when todo-ai offers it and to [storage] when only
    todo-storage does, and [allTools] holds every offered declaration,
    todo-storage's first, a name offered twice being declared twice. *)
Theorem startup_accepts_every_name (storage_proc ai_proc : provider_process)
    (storageMeta aiMeta : list mcp_tool) :
  connects storage_proc = true -> connects ai_proc = true ->
  tools storage_proc = Some storageMeta -> tools ai_proc = Some aiMeta ->
  exists r,
    start storage_proc ai_proc = Listening r
    /\ (forall n, toolServerMap r !! n
                  = if decide (n ∈ mt_name <$> aiMeta) then Some ai
                    else if decide (n ∈ mt_name <$> storageMeta) then Some storage
                    else None)
    /\ allTools r
       = (fun t => ToolDecl (mt_name t) (mt_description t) (mt_inputSchema t))
           <$> (storageMeta ++ aiMeta)%list.
Proof.
  intros Hs Ha Hst Hat. unfold start, initMCP. rewrite Hs, Ha, Hst, Hat. simpl.
  eexists. split; [reflexivity|]. split.
  - intros n. rewrite !foldl_register_lookup. simpl.
    by rewrite lookup_empty.
  - rewrite !foldl_register_allTools. simpl. by rewrite fmap_app.
Qed.

End ServerFacts.

(** * The scenarios, evaluated *)

Module ScenarioFacts.
Import Js Mcp Server Scenario.

Example registry_of_providers : initMCP storage_proc ai_proc = Some the_registry.
Proof. reflexivity. Qed.

Lemma startup_accepts_every_name_witness :
  exists r, start storage_proc clashing_proc = Listening r
            /\ toolServerMap r !! "list_todos" = Some ai
            /\ toolServerMap r !! "create_todo" = Some storage.
Proof.
  destruct (ServerFacts.startup_accepts_every_name storage_proc clashing_proc
              storage_tools [McpTool "list_todos" "AI-powered: list what matters" ""]
              eq_refl eq_refl eq_refl eq_refl) as (r & Hstart & Hroute & _).
  exists r. split; [exact Hstart|]. split; rewrite Hroute; reflexivity.
Defined.

(** A name that todo-storage registered and todo-ai registers again is
    accepted: the server listens, the name is routed to todo-ai, and it is
    declared twice to the engine. *)
Lemma clashing_name_accepted :
  exists r, start storage_proc clashing_proc = Listening r
            /\ "list_todos" ∈ mt_name <$> storage_tools
            /\ toolServerMap r !! "list_todos" = Some ai
            /\ length (List.filter (fun d => String.eqb (name d) "list_todos") (allTools r)) = 2.
Proof.
  eexists. split; [reflexivity|]. split; [|split; reflexivity].
  set_solver.
Qed.

Lemma callMCPTool_first_segment_witness :
  @callMCPTool args scripted camera_backend
    (register ai empty_registry (McpTool "snapshot" "" "")) "snapshot" ∅ offline_world
  = (Ok "", offline_world).
Proof.
  assert (toolServerMap (register ai empty_registry (McpTool "snapshot" "" ""))
            !! "snapshot" = Some ai) as Hroute
    by (vm_compute; reflexivity).
  destruct (@ServerFacts.callMCPTool_first_segment args scripted camera_backend
              _ "snapshot" ∅ offline_world ai
              {| Mcp.content := [ {| seg_type := "image"; seg_text := None |};
                                  text_segment "caption" ] |}
              offline_world Hroute eq_refl)
    as (_ & _ & Hfirst & _).
  exact (Hfirst _ _ eq_refl eq_refl).
Defined.

(** The storage provider's answers are one text segment, which is what
    comes back. *)
Example callMCPTool_storage_text :
  callMCPTool the_registry "list_todos" {[ "priority" := "low" ]} greeting_world
  = (Ok "No todos match the filter.", greeting_world).
Proof. vm_compute. reflexivity. Qed.

(** Only the first segment is looked at: a text in a later segment is not
    returned. *)
Example callMCPTool_later_text (r : registry) :
  toolServerMap r !! "snapshot" = Some ai ->
  @callMCPTool args scripted
    {| messages_create := scripted_engine;
       callTool := fun _ _ _ w =>
         (Ok {| Mcp.content := [ {| seg_type := "image"; seg_text := None |};
                                 text_segment "caption" ] |}, w) |}
    r "snapshot" ∅ offline_world
  = (Ok "", offline_world).
Proof. intros Hroute. unfold callMCPTool. by rewrite Hroute. Qed.

(** An unregistered tool name ends the turn: its [tool_call] event is
    followed by an [error] event and no [tool_result]; the call after it is
    not dispatched and the engine, whose next answer stays in the script,
    is not queried again. *)
Lemma unknown_tool_ends_turn :
  chat 3 the_registry "archive everything" [] unknown_tool_world
  = Some ([EvToolCall "archive_todo" ∅;
           EvError "No MCP server registered for tool: archive_todo"],
          {| data := None; script := [answer "Done."] |})
  /\ ~ (exists events w result,
          chat 3 the_registry "archive everything" [] unknown_tool_world = Some (events, w)
          /\ EvToolResult "archive_todo" result ∈ events).
Proof.
  assert (chat 3 the_registry "archive everything" [] unknown_tool_world
          = Some ([EvToolCall "archive_todo" ∅;
                   EvError "No MCP server registered for tool: archive_todo"],
                  {| data := None; script := [answer "Done."] |})) as Hchat
    by (vm_compute; reflexivity).
  split; [exact Hchat|].
  intros (events & w & result & Hrun & Hin). rewrite Hchat in Hrun.
  injection Hrun as <- _.
  repeat (apply elem_of_cons in Hin as [Hin|Hin]; [discriminate Hin|]).
  by apply elem_of_nil in Hin.
Qed.

Lemma failed_call_ends_turn_witness :
  chat 3 the_registry "list, then archive" [] late_failure_world
  = Some ([EvToolCall "list_todos" ∅;
           EvToolResult "list_todos" "No todos match the filter.";
           EvToolCall "archive_todo" ∅;
           EvError "No MCP server registered for tool: archive_todo"],
          {| data := None; script := [answer "Done."] |}).
Proof.
  destruct (ServerFacts.failed_call_ends_turn 1 1 the_registry "list, then archive" []
              late_failure_world
              [Message user (Str "list, then archive");
               Message assistant (Blocks [ToolUse "toolu_1" "list_todos" ∅]);
               Message user (ToolResults
                               [ToolResult "toolu_1" "No todos match the filter."])]
              {| world := {| data := None;
                             script := [ask [ToolUse "toolu_2" "archive_todo" ∅;
                                             ToolUse "toolu_3" "list_todos" ∅];
                                        answer "Done."] |};
                 written := [EvToolCall "list_todos" ∅;
                             EvToolResult "list_todos" "No todos match the filter."] |}
              {| stop_reason := "tool_use";
                 resp_content := [ToolUse "toolu_2" "archive_todo" ∅;
                                  ToolUse "toolu_3" "list_todos" ∅] |}
              {| data := None; script := [answer "Done."] |}
              [] "toolu_2" "archive_todo" ∅ [ToolUse "toolu_3" "list_todos" ∅] []
              {| world := {| data := None; script := [answer "Done."] |};
                 written := [EvToolCall "list_todos" ∅;
                             EvToolResult "list_todos" "No todos match the filter."] |}
              "No MCP server registered for tool: archive_todo"
              {| data := None; script := [answer "Done."] |})
    as (Hrun & _).
  - vm_compute. reflexivity.
  - reflexivity.
  - reflexivity.
  - reflexivity.
  - reflexivity.
  - left. split; [vm_compute; reflexivity|]. split; reflexivity.
  - exact Hrun.
Defined.

(** When the second of two requested tools is not registered, the pass
    writes three events and the handler an [error]: not the four events of
    two dispatched calls. *)
Lemma second_call_fails :
  chat 3 the_registry "list, then archive" [] second_fails_world
  = Some ([EvToolCall "list_todos" ∅;
           EvToolResult "list_todos" "No todos match the filter.";
           EvToolCall "archive_todo" ∅;
           EvError "No MCP server registered for tool: archive_todo"],
          {| data := None; script := [answer "Done."] |})
  /\ ~ (exists w resultA resultB,
          chat 3 the_registry "list, then archive" [] second_fails_world
          = Some ([EvToolCall "list_todos" ∅; EvToolResult "list_todos" resultA;
                   EvToolCall "archive_todo" ∅; EvToolResult "archive_todo" resultB], w)).
Proof.
  assert (chat 3 the_registry "list, then archive" [] second_fails_world
          = Some ([EvToolCall "list_todos" ∅;
                   EvToolResult "list_todos" "No todos match the filter.";
                   EvToolCall "archive_todo" ∅;
                   EvError "No MCP server registered for tool: archive_todo"],
                  {| data := None; script := [answer "Done."] |})) as Hchat
    by (vm_compute; reflexivity).
  split; [exact Hchat|].
  intros (w & resultA & resultB & Hrun). rewrite Hchat in Hrun. discriminate Hrun.
Qed.

Lemma two_calls_in_order_witness :
  exists messages st,
    loop_body the_registry [Message user (Str "add buy milk and show my list")]
      {| world := two_calls_world; written := [] |}
    = (Ok (Continue messages), st)
    /\ written st
       = [EvToolCall "create_todo" buy_milk;
          EvToolResult "create_todo"
            ("Created todo " +:+ TodoStorage.quote +:+ "buy milk" +:+ TodoStorage.quote
               +:+ " with ID 1001");
          EvToolCall "list_todos" ∅;
          EvToolResult "list_todos"
            ("[1001] " +:+ TodoStorage.circle_mark +:+ " buy milk | medium priority")].
Proof.
  eexists _, _. split.
  - apply (ServerFacts.two_calls_in_order the_registry
             [Message user (Str "add buy milk and show my list")]
             {| world := two_calls_world; written := [] |}
             {| stop_reason := "tool_use";
                resp_content := [Text "Adding it, then listing.";
                                 ToolUse "toolu_1" "create_todo" buy_milk;
                                 ToolUse "toolu_2" "list_todos" ∅] |}
             {| data := None; script := [answer "Done."] |}
             "toolu_1" "create_todo" buy_milk "toolu_2" "list_todos" ∅
             ("Created todo " +:+ TodoStorage.quote +:+ "buy milk" +:+ TodoStorage.quote
                +:+ " with ID 1001")
             {| data := Some [a_todo "1001" "buy milk" "medium" false];
                script := [answer "Done."] |}
             ("[1001] " +:+ TodoStorage.circle_mark +:+ " buy milk | medium priority")
             {| data := Some [a_todo "1001" "buy milk" "medium" false];
                script := [answer "Done."] |}).
    + reflexivity.
    + reflexivity.
    + reflexivity.
    + vm_compute. reflexivity.
    + vm_compute. reflexivity.
  - reflexivity.
Defined.

Lemma plain_answer_events_witness :
  chat 1 the_registry "hi" [] greeting_world
  = Some ([EvResponse "Hello!";
           EvDone [Message user (Str "hi"); Message assistant (Blocks [Text "Hello!"])]],
          {| data := Some some_todos; script := [] |}).
Proof.
  apply (ServerFacts.plain_answer_events 0 the_registry "hi" [] greeting_world
           {| stop_reason := "end_turn"; resp_content := [Text "Hello!"] |}).
  - reflexivity.
  - discriminate.
Defined.

Lemma fatal_error_events_witness :
  chat 2 the_registry "what is on my list?" [] drops_world
  = Some ([EvToolCall "list_todos" ∅;
           EvToolResult "list_todos" "No todos match the filter.";
           EvError "Connection error."],
          {| data := None; script := [] |}).
Proof.
  destruct (ServerFacts.fatal_error_events 1 0 the_registry "what is on my list?" []
              drops_world
              [Message user (Str "what is on my list?");
               Message assistant (Blocks [ToolUse "toolu_1" "list_todos" ∅]);
               Message user (ToolResults
                               [ToolResult "toolu_1" "No todos match the filter."])]
              {| world := {| data := None; script := [] |};
                 written := [EvToolCall "list_todos" ∅;
                             EvToolResult "list_todos" "No todos match the filter."] |}
              "Connection error." {| data := None; script := [] |})
    as (Hrun & _).
  - vm_compute. reflexivity.
  - reflexivity.
  - exact Hrun.
Defined.

(** An engine that is unreachable at the first query: the stream is the
    [error] event alone. *)
Example engine_unreachable :
  chat 1 the_registry "hi" [] offline_world
  = Some ([EvError "Connection error."], offline_world).
Proof. vm_compute. reflexivity. Qed.

(** Against the engine that asks for [list_todos] at every query, each
    pass dispatches the call and reaches the end of the loop body. *)
Lemma insistent_pass (messages : list (message args)) (evs : list (event args)) :
  loop_body the_registry messages {| world := (None : TodoStorage.file); written := evs |}
  = (Ok (Continue (messages ++
           [Message assistant (Blocks [ToolUse "toolu_1" "list_todos" ∅]);
            Message user (ToolResults [ToolResult "toolu_1" "No todos match the filter."])])),
     {| world := None;
        written := evs ++ [EvToolCall "list_todos" ∅;
                           EvToolResult "list_todos" "No todos match the filter."] |}).
Proof.
  assert (callMCPTool the_registry "list_todos" (∅ : args) (None : TodoStorage.file)
          = (Ok "No todos match the filter.", None)) as Hcall
    by (vm_compute; reflexivity).
  erewrite ServerFacts.loop_body_tool_use; [|reflexivity..].
  cbn [resp_content for_blocks].
  unfold mbind, M_bind, bind, mret, M_ret, ret, send, await.
  cbn [world written]. rewrite Hcall. cbn [world written].
  by rewrite <- !app_assoc.
Qed.

Lemma insistent_loop_runs_on (fuel : nat) :
  forall (messages : list (message args)) (evs : list (event args)),
    loop fuel the_registry messages {| world := (None : TodoStorage.file); written := evs |}
    = None.
Proof.
  induction fuel as [|fuel IH]; intros messages evs; [reflexivity|].
  cbn [loop]. rewrite insistent_pass. apply IH.
Qed.

(** No number of passes ends the turn against that engine: the handler
    never closes the stream, and no bound on the passes stops it. *)
Lemma insistent_engine_never_ends :
  ~ (exists fuel out,
        chat fuel the_registry "what is on my list?" [] (None : TodoStorage.file)
        = Some out).
Proof.
  intros (fuel & out & Hrun). unfold chat, try_loop in Hrun.
  by rewrite insistent_loop_runs_on in Hrun.
Qed.

(** The end-to-end scenario: from an empty history the conversation of the
    [done] event has four messages, not three. *)
Lemma buy_milk_conversation_length :
  exists conversation w,
    chat 2 the_registry "add buy milk" [] milk_world
    = Some ([EvToolCall "create_todo" buy_milk;
             EvToolResult "create_todo"
               ("Created todo " +:+ TodoStorage.quote +:+ "buy milk" +:+ TodoStorage.quote
                  +:+ " with ID 1001");
             EvResponse "Added!";
             EvDone conversation], w)
    /\ length conversation = 4
    /\ length conversation <> length ([] : list (message args)) + 3.
Proof.
  eexists _, _. split; [vm_compute; reflexivity|]. split; [reflexivity|]. simpl. lia.
Qed.

Lemma one_call_then_answer_witness :
  exists conversation,
    chat 2 the_registry "add buy milk" [] milk_world
    = Some ([EvToolCall "create_todo" buy_milk;
             EvToolResult "create_todo"
               ("Created todo " +:+ TodoStorage.quote +:+ "buy milk" +:+ TodoStorage.quote
                  +:+ " with ID 1001");
             EvResponse "Added!";
             EvDone conversation],
            {| data := Some [a_todo "1001" "buy milk" "medium" false]; script := [] |})
    /\ length conversation = 4.
Proof.
  destruct (ServerFacts.one_call_then_answer 0 the_registry "add buy milk" [] milk_world
              {| stop_reason := "tool_use";
                 resp_content := [ToolUse "toolu_1" "create_todo" buy_milk] |}
              {| data := None; script := [answer "Added!"] |}
              "toolu_1" "create_todo" buy_milk
              ("Created todo " +:+ TodoStorage.quote +:+ "buy milk" +:+ TodoStorage.quote
                 +:+ " with ID 1001")
              {| data := Some [a_todo "1001" "buy milk" "medium" false];
                 script := [answer "Added!"] |}
              {| stop_reason := "end_turn"; resp_content := [Text "Added!"] |}
              {| data := Some [a_todo "1001" "buy milk" "medium" false]; script := [] |})
    as (conversation & Hrun & _ & Hlen & _).
  - reflexivity.
  - reflexivity.
  - reflexivity.
  - vm_compute. reflexivity.
  - reflexivity.
  - discriminate.
  - exists conversation. split; [exact Hrun|exact Hlen].
Defined.

End ScenarioFacts.

(** * Further properties of servers/todo-storage.js *)

Module TodoStorageMore.
Import Js Mcp TodoStorage.

Implicit Types (todos : list todo) (t : todo) (f : file) (a : args).

(** *** [findIndex] *)

Lemma findIndex_first {A : Type} (p : A -> bool) (l : list A) (x : A) :
  x ∈ l -> p x = true ->
  exists i y, findIndex p l = Some i /\ l !! i = Some y /\ p y = true
              /\ (forall j z, j < i -> l !! j = Some z -> p z = false).
Proof.
  induction l as [|h l IH]; intros Hin Hp; [by apply elem_of_nil in Hin|].
  simpl. destruct (p h) eqn:Hh.
  - exists 0, h. repeat split; [done..|]. intros j z Hj. lia.
  - apply elem_of_cons in Hin as [->|Hin]; [congruence|].
    destruct (IH Hin Hp) as (i & y & Hfind & Hy & Hpy & Hfirst).
    exists (S i), y. rewrite Hfind. repeat split; [done..|].
    intros [|j] z Hj Hz; simpl in Hz; [congruence|].
    apply (Hfirst j); [lia|done].
Qed.

Lemma findIndex_ext {A : Type} (p q : A -> bool) (l : list A) :
  (forall x, p x = q x) -> findIndex p l = findIndex q l.
Proof. intros Hpq. induction l as [|h l IH]; simpl; [done|]. by rewrite Hpq, IH. Qed.

Lemma findIndex_lookup {A : Type} (p : A -> bool) (l : list A) (i : nat) :
  findIndex p l = Some i -> exists y, l !! i = Some y /\ p y = true.
Proof.
  revert i. induction l as [|h l IH]; intros i; simpl; [done|].
  destruct (p h) eqn:Hh.
  - intros [= <-]. by exists h.
  - destruct (findIndex p l) as [k|]; simpl; [|done].
    intros [= <-]. by apply IH.
Qed.

Lemma findIndex_snoc {A : Type} (p : A -> bool) (l : list A) (x : A) :
  Forall (fun y => p y = false) l -> p x = true ->
  findIndex p (l ++ [x]) = Some (length l).
Proof.
  intros Hl Hx. induction Hl as [|h l Hh _ IH]; simpl; [by rewrite Hx|].
  by rewrite Hh, IH.
Qed.

(** Looking a todo up by the [id] argument of a call. *)
Lemma find_by_id a ident todos :
  a !! "id" = Some ident -> ident ∈ id <$> todos ->
  exists idx t,
    findIndex (fun t => strict_eq (a !! "id") (id t)) todos = Some idx
    /\ todos !! idx = Some t /\ id t = ident
    /\ (forall j t', j < idx -> todos !! j = Some t' -> id t' <> ident).
Proof.
  intros Hid (t0 & Ht0 & Hin)%list_elem_of_fmap. rewrite Hid. simpl.
  destruct (findIndex_first (fun t => String.eqb ident (id t)) todos t0 Hin)
    as (idx & t & Hfind & Ht & Hp & Hfirst).
  { subst ident. apply String.eqb_refl. }
  exists idx, t. split; [done|]. split; [done|].
  apply String.eqb_eq in Hp. split; [done|].
  intros j t' Hj Ht' Heq. specialize (Hfirst j t' Hj Ht').
  apply String.eqb_neq in Hfirst. congruence.
Qed.

Lemma alter_as_insert {A : Type} (g : A -> A) (l : list A) (i : nat) (x : A) :
  l !! i = Some x -> alter g i l = <[i := g x]> l.
Proof.
  revert i. induction l as [|h l IH]; intros [|i] Hx; simpl in *; try done.
  - by injection Hx as ->.
  - f_equal. by apply IH.
Qed.

Lemma fmap_alter_same {A B : Type} (g : A -> A) (h : A -> B) (l : list A) (i : nat) :
  (forall x, h (g x) = h x) -> h <$> alter g i l = h <$> l.
Proof.
  intros Hg. revert i. induction l as [|x l IH]; intros [|i]; simpl; try done.
  - by rewrite Hg.
  - f_equal. apply IH.
Qed.

(** *** The branches that find the todo *)

(** X1.  When a stored todo has the id, [update_todo] rewrites exactly the
    first todo with that id: each of title, description, priority and due
    date becomes the argument given for it and stays as stored when none is
    given, [updated_at] becomes the time of the call, and id, [completed],
    [created_at] and [completed_at] are untouched; every other position of
    the stored list is as before, and the answer names the new title. *)
Theorem update_todo_found (clk : clock) a f (ident : string) :
  a !! "id" = Some ident -> ident ∈ id <$> readTodos f ->
  exists idx t t',
    readTodos f !! idx = Some t /\ id t = ident
    /\ (forall j t0, j < idx -> readTodos f !! j = Some t0 -> id t0 <> ident)
    /\ handler clk "update_todo" a f
       = (Ok (text_result
                ("Updated todo " +:+ quote
                   +:+ match title t' with Some s => s | None => "undefined" end
                   +:+ quote)),
          Some (<[idx := t']> (readTodos f)))
    /\ title t' = match a !! "title" with Some s => Some s | None => title t end
    /\ description t'
       = match a !! "description" with Some s => s | None => description t end
    /\ priority t' = match a !! "priority" with Some s => s | None => priority t end
    /\ due_date t' = match a !! "due_date" with Some s => Some s | None => due_date t end
    /\ updated_at t' = Some (now_iso clk)
    /\ id t' = id t /\ completed t' = completed t
    /\ created_at t' = created_at t /\ completed_at t' = completed_at t.
Proof.
  intros Hid Hin.
  destruct (find_by_id a ident (readTodos f) Hid Hin) as (idx & t & Hfind & Ht & Hidt & Hfirst).
  exists idx, t.
  exists (set_updated_at (now_iso clk)
            (set_due_date (a !! "due_date")
               (set_priority (a !! "priority")
                  (set_description (a !! "description")
                     (set_title (a !! "title") t))))).
  split; [done|]. split; [done|]. split; [done|]. split.
  - unfold handler. simpl String.eqb. cbv iota. rewrite Hfind.
    rewrite !list_alter_alter_eq.
    rewrite (alter_as_insert _ _ _ _ Ht). unfold compose.
    rewrite list_lookup_insert_eq by (by eapply lookup_lt_Some). done.
  - by destruct (a !! "due_date"), (a !! "priority"), (a !! "description"), (a !! "title").
Qed.

Lemma update_todo_found_witness :
  handler Scenario.the_clock "update_todo" {[ "id" := "2"; "priority" := "low" ]}
    (Some Scenario.some_todos)
  = (Ok (text_result ("Updated todo " +:+ quote +:+ "call mum" +:+ quote)),
     Some [ Scenario.a_todo "1" "buy milk" "high" false;
            {| id := "2"; title := Some "call mum"; description := "";
               priority := "low"; due_date := None; completed := true;
               created_at := "2026-01-01T00:00:00.000Z";
               updated_at := Some "2026-01-01T00:00:00.000Z";
               completed_at := None |};
            Scenario.a_todo "3" "pay rent" "high" true ]).
Proof.
  destruct (update_todo_found Scenario.the_clock {[ "id" := "2"; "priority" := "low" ]}
              (Some Scenario.some_todos) "2")
    as (idx & t & t' & Ht & Hidt & _ & Hrun & Htitle & Hdesc & Hprio & Hdue & Hupd
        & Hid & Hcompleted & Hcreated & Hcompleted_at).
  - reflexivity.
  - apply (bool_decide_unpack _); vm_compute; exact I.
  - rewrite Hrun.
    destruct idx as [|[|[|idx]]]; simpl in Ht; try discriminate Ht;
      injection Ht as <-; try discriminate Hidt.
    destruct t' as [i ti de pr du co cr up ca]. simpl in *. subst.
    reflexivity.
Defined.

(** X2.  When a stored todo has the id, [complete_todo] rewrites exactly
    the first todo with that id: [completed] becomes true and
    [completed_at] the time of the call, whether or not it was completed
    before, and its other fields are untouched; every other position of
    the stored list is as before, and the answer names its title. *)
Theorem complete_todo_found (clk : clock) a f (ident : string) :
  a !! "id" = Some ident -> ident ∈ id <$> readTodos f ->
  exists idx t t',
    readTodos f !! idx = Some t /\ id t = ident
    /\ (forall j t0, j < idx -> readTodos f !! j = Some t0 -> id t0 <> ident)
    /\ handler clk "complete_todo" a f
       = (Ok (text_result
                ("Marked " +:+ quote
                   +:+ match title t with Some s => s | None => "undefined" end
                   +:+ quote +:+ " as complete ✓")),
          Some (<[idx := t']> (readTodos f)))
    /\ completed t' = true /\ completed_at t' = Some (now_iso clk)
    /\ id t' = id t /\ title t' = title t /\ description t' = description t
    /\ priority t' = priority t /\ due_date t' = due_date t
    /\ created_at t' = created_at t /\ updated_at t' = updated_at t.
Proof.
  intros Hid Hin.
  destruct (find_by_id a ident (readTodos f) Hid Hin) as (idx & t & Hfind & Ht & Hidt & Hfirst).
  exists idx, t, (set_completed (now_iso clk) t).
  split; [done|]. split; [done|]. split; [done|]. split; [|done].
  unfold handler. simpl String.eqb. cbv iota. rewrite Hfind.
  rewrite (alter_as_insert _ _ _ _ Ht).
  rewrite list_lookup_insert_eq by (by eapply lookup_lt_Some). done.
Qed.

Lemma complete_todo_found_witness :
  handler Scenario.the_clock "complete_todo" {[ "id" := "1" ]} (Some Scenario.some_todos)
  = (Ok (text_result ("Marked " +:+ quote +:+ "buy milk" +:+ quote +:+ " as complete ✓")),
     Some [ {| id := "1"; title := Some "buy milk"; description := "";
               priority := "high"; due_date := None; completed := true;
               created_at := "2026-01-01T00:00:00.000Z";
               updated_at := None;
               completed_at := Some "2026-01-01T00:00:00.000Z" |};
            Scenario.a_todo "2" "call mum" "medium" true;
            Scenario.a_todo "3" "pay rent" "high" true ]).
Proof.
  destruct (complete_todo_found Scenario.the_clock {[ "id" := "1" ]}
              (Some Scenario.some_todos) "1")
    as (idx & t & t' & Ht & Hidt & _ & Hrun & Hcompleted & Hat & Hid & Htitle & Hdesc
        & Hprio & Hdue & Hcreated & Hupd).
  - reflexivity.
  - apply (bool_decide_unpack _); vm_compute; exact I.
  - rewrite Hrun.
    destruct idx as [|[|[|idx]]]; simpl in Ht; try discriminate Ht;
      injection Ht as <-; try discriminate Hidt.
    destruct t' as [i ti de pr du co cr up ca]. simpl in *. subst.
    reflexivity.
Defined.

(** X3.  When a stored todo has the id, [delete_todo] removes exactly the
    first todo with that id and names its title; the other todos keep
    their order and the list is one shorter. *)
Theorem delete_todo_found (clk : clock) a f (ident : string) :
  a !! "id" = Some ident -> ident ∈ id <$> readTodos f ->
  exists idx t,
    readTodos f !! idx = Some t /\ id t = ident
    /\ (forall j t', j < idx -> readTodos f !! j = Some t' -> id t' <> ident)
    /\ handler clk "delete_todo" a f
       = (Ok (text_result ("Deleted " +:+ quote +:+ template (title t) +:+ quote)),
          Some (take idx (readTodos f) ++ drop (S idx) (readTodos f))%list)
    /\ S (length (take idx (readTodos f) ++ drop (S idx) (readTodos f))%list)
       = length (readTodos f).
Proof.
  intros Hid Hin.
  destruct (find_by_id a ident (readTodos f) Hid Hin) as (idx & t & Hfind & Ht & Hidt & Hfirst).
  exists idx, t. split; [done|]. split; [done|]. split; [done|]. split.
  - unfold handler. simpl String.eqb. cbv iota. rewrite Hfind, Ht.
    by rewrite delete_take_drop.
  - apply lookup_lt_Some in Ht.
    rewrite length_app, length_take, length_drop. lia.
Qed.

Lemma delete_todo_found_witness :
  handler Scenario.the_clock "delete_todo" {[ "id" := "2" ]} (Some Scenario.some_todos)
  = (Ok (text_result ("Deleted " +:+ quote +:+ "call mum" +:+ quote)),
     Some [ Scenario.a_todo "1" "buy milk" "high" false;
            Scenario.a_todo "3" "pay rent" "high" true ]).
Proof.
  destruct (delete_todo_found Scenario.the_clock {[ "id" := "2" ]}
              (Some Scenario.some_todos) "2") as (idx & t & Ht & Hidt & _ & Hrun & _).
  - reflexivity.
  - apply (bool_decide_unpack _); vm_compute; exact I.
  - rewrite Hrun.
    destruct idx as [|[|[|idx]]]; simpl in Ht; try discriminate Ht;
      injection Ht as <-; try discriminate Hidt.
    reflexivity.
Defined.

(** *** What every call keeps *)

(** Unfolds the handler on the name of the call, one tool at a time. *)
Ltac by_tool name :=
  unfold handler;
  destruct (String.eqb_spec name "create_todo") as [->|?];
  [|destruct (String.eqb_spec name "list_todos") as [->|?];
    [|destruct (String.eqb_spec name "update_todo") as [->|?];
      [|destruct (String.eqb_spec name "complete_todo") as [->|?];
        [|destruct (String.eqb_spec name "delete_todo") as [->|?]]]]].

Lemma set_fields_id (clk : clock) a t :
  id (set_updated_at (now_iso clk)
        (set_due_date (a !! "due_date")
           (set_priority (a !! "priority")
              (set_description (a !! "description")
                 (set_title (a !! "title") t))))) = id t.
Proof. by destruct (a !! "due_date"), (a !! "priority"), (a !! "description"), (a !! "title"). Qed.

(** The ids stored after an update or a completion are those stored before. *)
Lemma update_keeps_ids (clk : clock) a todos (idx : nat) :
  id <$> alter (set_updated_at (now_iso clk)) idx
           (alter (set_due_date (a !! "due_date")) idx
              (alter (set_priority (a !! "priority")) idx
                 (alter (set_description (a !! "description")) idx
                    (alter (set_title (a !! "title")) idx todos))))
  = id <$> todos.
Proof.
  rewrite !list_alter_alter_eq. apply fmap_alter_same.
  intros t. apply set_fields_id.
Qed.

(** X4.  No call other than [delete_todo] removes or reorders a stored
    todo or changes a stored id: the ids stored before the call are a
    prefix of the ids stored after it. *)
Theorem only_delete_removes (clk : clock) (name : string) a f o f' :
  name <> "delete_todo" ->
  handler clk name a f = (o, f') ->
  (id <$> readTodos f) `prefix_of` (id <$> readTodos f').
Proof.
  intros Hname. by_tool name; try done; simpl.
  - intros [= <- <-]. simpl. rewrite fmap_app. by apply prefix_app_r.
  - destruct (Nat.eqb _ 0); by intros [= <- <-].
  - destruct (findIndex _ _) as [idx|]; intros [= <- <-]; [|done].
    simpl. by rewrite update_keeps_ids.
  - destruct (findIndex _ _) as [idx|]; intros [= <- <-]; [|done].
    simpl. by rewrite fmap_alter_same.
  - by intros [= <- <-].
Qed.

Lemma only_delete_removes_witness :
  (id <$> Scenario.some_todos)
    `prefix_of` (id <$> readTodos (handler Scenario.the_clock "create_todo"
                                     Scenario.buy_milk (Some Scenario.some_todos)).2).
Proof.
  apply (only_delete_removes Scenario.the_clock "create_todo" Scenario.buy_milk
           (Some Scenario.some_todos)
           (handler Scenario.the_clock "create_todo" Scenario.buy_milk
              (Some Scenario.some_todos)).1).
  - discriminate.
  - reflexivity.
Defined.

Lemma NoDup_delete_absent {A : Type} (l : list A) (i : nat) (x : A) :
  NoDup l -> l !! i = Some x -> x ∉ delete i l.
Proof.
  intros Hnd Hx. rewrite delete_take_drop.
  rewrite <- (take_drop_middle l i x Hx) in Hnd.
  apply NoDup_app in Hnd as (_ & Hleft & Hright).
  apply NoDup_cons in Hright as [Hright _].
  intros [Hin|Hin]%elem_of_app; [|done].
  apply (Hleft x Hin). by left.
Qed.

(** X5.  Stored ids stay pairwise distinct: when they are before a call,
    and, for [create_todo], the clock's reading is not yet a stored id,
    they are after it. *)
Theorem ids_stay_distinct (clk : clock) (name : string) a f o f' :
  NoDup (id <$> readTodos f) ->
  (name = "create_todo" -> now_ms clk ∉ id <$> readTodos f) ->
  handler clk name a f = (o, f') ->
  NoDup (id <$> readTodos f').
Proof.
  intros Hnd Hfresh. by_tool name; simpl.
  - intros [= <- <-]. simpl. rewrite fmap_app. apply NoDup_app.
    split; [done|]. split; [|apply NoDup_singleton].
    intros x Hx ->%list_elem_of_singleton. by apply Hfresh.
  - destruct (Nat.eqb _ 0); by intros [= <- <-].
  - destruct (findIndex _ _) as [idx|]; intros [= <- <-]; [|done].
    simpl. by rewrite update_keeps_ids.
  - destruct (findIndex _ _) as [idx|]; intros [= <- <-]; [|done].
    simpl. by rewrite fmap_alter_same.
  - destruct (findIndex _ _) as [idx|]; intros [= <- <-]; [|done].
    simpl. rewrite list_fmap_delete. eapply sublist_NoDup; [exact Hnd|]. apply sublist_delete.
  - by intros [= <- <-].
Qed.

Lemma ids_stay_distinct_witness :
  NoDup (id <$> readTodos (handler Scenario.the_clock "create_todo" Scenario.buy_milk
                             (Some Scenario.some_todos)).2).
Proof.
  apply (ids_stay_distinct Scenario.the_clock "create_todo" Scenario.buy_milk
           (Some Scenario.some_todos)
           (handler Scenario.the_clock "create_todo" Scenario.buy_milk
              (Some Scenario.some_todos)).1).
  - apply (bool_decide_unpack _); vm_compute; exact I.
  - intros _. apply (bool_decide_unpack _); vm_compute; exact I.
  - reflexivity.
Defined.

(** X6.  With pairwise distinct stored ids, a todo that [delete_todo]
    removed is gone: a second [delete_todo] with the same id finds nothing
    and leaves the file as the first call left it. *)
Theorem delete_twice (clk clk' : clock) a f (ident : string) o f' :
  NoDup (id <$> readTodos f) ->
  a !! "id" = Some ident -> ident ∈ id <$> readTodos f ->
  handler clk "delete_todo" a f = (o, f') ->
  handler clk' "delete_todo" a f'
  = (Ok (text_result ("No todo found with ID " +:+ ident)), f').
Proof.
  intros Hnd Hid Hin Hrun.
  destruct (find_by_id a ident (readTodos f) Hid Hin) as (idx & t & Hfind & Ht & Hidt & _).
  unfold handler in Hrun. simpl String.eqb in Hrun. cbv iota in Hrun.
  rewrite Hfind in Hrun. injection Hrun as _ <-.
  assert (ident ∉ id <$> delete idx (readTodos f)) as Habsent.
  { rewrite list_fmap_delete. apply NoDup_delete_absent; [done|].
    by rewrite list_lookup_fmap, Ht, <- Hidt. }
  unfold handler. simpl String.eqb. cbv iota. rewrite Hid. simpl.
  pose proof (TodoStorageFacts.findIndex_None _ _
                (TodoStorageFacts.strict_eq_absent _ _ Habsent)) as Hnone.
  simpl in Hnone. by rewrite Hnone.
Qed.

Lemma delete_twice_witness :
  handler Scenario.the_clock "delete_todo" {[ "id" := "2" ]}
    (handler Scenario.the_clock "delete_todo" {[ "id" := "2" ]}
       (Some Scenario.some_todos)).2
  = (Ok (text_result "No todo found with ID 2"),
     (handler Scenario.the_clock "delete_todo" {[ "id" := "2" ]}
        (Some Scenario.some_todos)).2).
Proof.
  apply (delete_twice Scenario.the_clock Scenario.the_clock {[ "id" := "2" ]}
           (Some Scenario.some_todos) "2"
           (handler Scenario.the_clock "delete_todo" {[ "id" := "2" ]}
              (Some Scenario.some_todos)).1).
  - apply (bool_decide_unpack _); vm_compute; exact I.
  - reflexivity.
  - apply (bool_decide_unpack _); vm_compute; exact I.
  - reflexivity.
Defined.

(** X7.  Creating a todo and then deleting it by the id it was given
    restores the stored list, provided no stored todo already had that id;
    a data file that was missing or unreadable is then an empty list. *)
Theorem create_then_delete (clk clk' : clock) a f :
  now_ms clk ∉ id <$> readTodos f ->
  handler clk' "delete_todo" {[ "id" := now_ms clk ]} (handler clk "create_todo" a f).2
  = (Ok (text_result ("Deleted " +:+ quote +:+ template (a !! "title") +:+ quote)),
     Some (readTodos f)).
Proof.
  intros Hfresh.
  pose proof (TodoStorageFacts.strict_eq_absent _ _ Hfresh) as Habsent.
  unfold handler at 2. simpl String.eqb. cbv iota. cbn [snd].
  unfold handler. simpl String.eqb. cbv iota.
  rewrite lookup_singleton_eq. unfold writeTodos. cbn [readTodos default].
  unfold Datatypes.id.
  erewrite findIndex_snoc; [|exact Habsent|simpl; apply String.eqb_refl].
  rewrite delete_middle, app_nil_r.
  rewrite lookup_app_r by done. rewrite Nat.sub_diag. done.
Qed.

Lemma create_then_delete_witness :
  handler Scenario.the_clock "delete_todo" {[ "id" := "1001" ]}
    (handler Scenario.the_clock "create_todo" Scenario.buy_milk (Some Scenario.some_todos)).2
  = (Ok (text_result ("Deleted " +:+ quote +:+ "buy milk" +:+ quote)),
     Some Scenario.some_todos).
Proof.
  apply (create_then_delete Scenario.the_clock Scenario.the_clock Scenario.buy_milk
           (Some Scenario.some_todos)).
  apply (bool_decide_unpack _); vm_compute; exact I.
Defined.

End TodoStorageMore.

(** * Properties of the routes that bypass the agent loop *)

Module RoutesFacts.
Import Js Mcp TodoStorage Routes.

Lemma route_test_as_tool_test (ident : string) (a : args) (todos : list todo) :
  a !! "id" = Some ident ->
  findIndex (fun t => String.eqb (id t) ident) todos
  = findIndex (fun t => strict_eq (a !! "id") (id t)) todos.
Proof.
  intros ->. apply TodoStorageMore.findIndex_ext. intros t. simpl.
  apply String.eqb_sym.
Qed.

Lemma found_iff_stored (ident : string) (todos : list todo) :
  is_Some (findIndex (fun t => String.eqb (id t) ident) todos)
  <-> ident ∈ id <$> todos.
Proof.
  split.
  - intros [idx Hfind].
    apply TodoStorageMore.findIndex_lookup in Hfind as (t & Ht & Heq).
    apply String.eqb_eq in Heq as <-.
    apply list_elem_of_fmap. exists t. split; [done|]. by eapply list_elem_of_lookup_2.
  - intros (t & -> & Hin)%list_elem_of_fmap.
    destruct (TodoStorageMore.findIndex_first
                (fun t' => String.eqb (id t') (id t)) todos t Hin (String.eqb_refl _))
      as (idx & ? & -> & _). by eexists.
Qed.

(** X9.  The quick-complete route leaves the data file exactly as the
    [complete_todo] tool does for the same id and clock.  It answers 200
    when a stored todo has the id, 404 when the file reads but none has it,
    and 500 when the file is missing or unreadable, where the tool
    reports that no todo was found. *)
Theorem post_complete_as_tool (clk : clock) (read_error ident : string)
    (a : args) (f : file) :
  a !! "id" = Some ident ->
  (post_complete clk read_error ident f).2 = (handler clk "complete_todo" a f).2
  /\ status (post_complete clk read_error ident f).1
     = match f with
       | None => 500
       | Some todos => if bool_decide (ident ∈ id <$> todos) then 200 else 404
       end.
Proof.
  intros Hid. unfold post_complete, handler. simpl String.eqb. cbv iota.
  destruct f as [todos|]; simpl; [|done].
  rewrite <- (route_test_as_tool_test ident a todos Hid).
  pose proof (found_iff_stored ident todos) as Hiff.
  destruct (findIndex _ todos) as [idx|]; simpl.
  - split; [done|]. rewrite bool_decide_eq_true_2; [done|]. apply Hiff. by eexists.
  - split; [done|]. rewrite bool_decide_eq_false_2; [done|].
    intros Hin. apply Hiff in Hin. by destruct Hin.
Qed.

Lemma post_complete_as_tool_witness :
  (post_complete Scenario.the_clock "ENOENT" "1" (Some Scenario.some_todos)).2
  = (handler Scenario.the_clock "complete_todo" {[ "id" := "1" ]}
       (Some Scenario.some_todos)).2
  /\ status (post_complete Scenario.the_clock "ENOENT" "1" (Some Scenario.some_todos)).1
     = 200.
Proof.
  apply (post_complete_as_tool Scenario.the_clock "ENOENT" "1" {[ "id" := "1" ]}
           (Some Scenario.some_todos)).
  reflexivity.
Defined.

(** X10.  The quick-delete route leaves the data file exactly as the
    [delete_todo] tool does for the same id, with the same three answers:
    200 when a stored todo has the id, 404 when none has, 500 when the file
    is missing or unreadable. *)
Theorem delete_route_as_tool (clk : clock) (read_error ident : string)
    (a : args) (f : file) :
  a !! "id" = Some ident ->
  (delete_route read_error ident f).2 = (handler clk "delete_todo" a f).2
  /\ status (delete_route read_error ident f).1
     = match f with
       | None => 500
       | Some todos => if bool_decide (ident ∈ id <$> todos) then 200 else 404
       end.
Proof.
  intros Hid. unfold delete_route, handler. simpl String.eqb. cbv iota.
  destruct f as [todos|]; simpl; [|done].
  rewrite <- (route_test_as_tool_test ident a todos Hid).
  pose proof (found_iff_stored ident todos) as Hiff.
  destruct (findIndex _ todos) as [idx|]; simpl.
  - split; [done|]. rewrite bool_decide_eq_true_2; [done|]. apply Hiff. by eexists.
  - split; [done|]. rewrite bool_decide_eq_false_2; [done|].
    intros Hin. apply Hiff in Hin. by destruct Hin.
Qed.

Lemma delete_route_as_tool_witness :
  (delete_route "ENOENT" "9" (Some Scenario.some_todos)).2
  = (handler Scenario.the_clock "delete_todo" {[ "id" := "9" ]}
       (Some Scenario.some_todos)).2
  /\ status (delete_route "ENOENT" "9" (Some Scenario.some_todos)).1 = 404.
Proof.
  apply (delete_route_as_tool Scenario.the_clock "ENOENT" "9" {[ "id" := "9" ]}
           (Some Scenario.some_todos)).
  reflexivity.
Defined.

End RoutesFacts.

(** * Properties of servers/todo-ai.js *)

Module TodoAiFacts.
Import Js Mcp TodoStorage TodoAi.




End TodoAiFacts.

(** * Further properties of server.js *)

Module ServerMore.
Import Js Mcp Server Trace.

Section Loop.
Context {Input World : Type} `{!Backend Input World}.

Implicit Types (r : registry) (st : state Input World) (w : World).
Implicit Types (messages history : list (message Input)).
Implicit Types (blocks : list (block Input)).
Implicit Types (calls : list (string * Input * string)).

Ltac run :=
  unfold mbind, M_bind, bind, mret, M_ret, ret, send, await; simpl.

(** *** What the dispatch loop writes and returns *)

Lemma for_blocks_events r blocks acc st o st' :
  for_blocks r blocks acc st = (o, st') ->
  exists calls tail,
    written st' = (written st ++ flat_map call_events calls ++ tail)%list
    /\ match o with
       | Ok _ => tail = []
       | Throw _ => exists name input, tail = [EvToolCall name input]
       end.
Proof.
  revert acc st. induction blocks as [|b blocks IH]; intros acc st; simpl.
  - intros [= <- <-]. exists [], []. by rewrite app_nil_r.
  - destruct b as [text|id name input|type]; try apply IH.
    run. destruct (callMCPTool r name input (world st)) as [[result|msg] w'] eqn:Hcall; simpl.
    + intros Hrest. apply IH in Hrest as (calls & tail & Hw & Htail). simpl in Hw.
      exists ((name, input, result) :: calls), tail. split; [|done].
      rewrite Hw. simpl. by rewrite <- !app_assoc.
    + intros [= <- <-]. exists [], [EvToolCall name input]. simpl. eauto.
Qed.

Lemma for_blocks_ids r blocks acc st results st' :
  for_blocks r blocks acc st = (Ok results, st') ->
  exists new, results = (acc ++ new)%list
              /\ tool_use_id <$> new = omap block_id blocks.
Proof.
  revert acc st. induction blocks as [|b blocks IH]; intros acc st; simpl.
  - intros [= <- <-]. exists []. by rewrite app_nil_r.
  - destruct b as [text|id name input|type]; try apply IH.
    run. destruct (callMCPTool r name input (world st)) as [[result|msg] w'] eqn:Hcall;
      simpl; [|done].
    intros Hrest. apply IH in Hrest as (new & -> & Hids).
    exists (ToolResult id result :: new). rewrite <- app_assoc. simpl.
    split; [done|]. f_equal. exact Hids.
Qed.

(** *** One pass *)

Lemma loop_body_continues r messages st messages' st' :
  loop_body r messages st = (Ok (Continue messages'), st') ->
  exists content results calls,
    messages' = (messages ++ round_messages (content, results))%list
    /\ tool_use_id <$> results = omap block_id content
    /\ written st' = (written st ++ flat_map call_events calls)%list.
Proof.
  intros Hbody.
  destruct (messages_create messages (allTools r) (world st)) as [[resp|msg] w1] eqn:Hq.
  - destruct (String.eqb_spec (stop_reason resp) "tool_use") as [Hstop|Hstop].
    + rewrite (ServerFacts.loop_body_tool_use _ _ _ _ _ Hq Hstop) in Hbody.
      destruct (for_blocks r (resp_content resp) [] _) as [[results|msg] st1] eqn:Hfor;
        [|done].
      injection Hbody as <- <-.
      destruct (for_blocks_ids _ _ _ _ _ _ Hfor) as (new & -> & Hids).
      destruct (for_blocks_events _ _ _ _ _ _ Hfor) as (calls & tail & Hw & ->).
      exists (resp_content resp), new, calls. simpl in Hw.
      by rewrite app_nil_r in Hw.
    + by rewrite (ServerFacts.loop_body_answer _ _ _ _ _ Hq Hstop) in Hbody.
  - by rewrite (ServerFacts.loop_body_engine_throws _ _ _ _ _ Hq) in Hbody.
Qed.

Lemma loop_body_breaks r messages st st' :
  loop_body r messages st = (Ok Break, st') ->
  exists text final,
    written st'
    = (written st ++
       [EvResponse text; EvDone (messages ++ [Message assistant (Blocks final)])])%list.
Proof.
  intros Hbody.
  destruct (messages_create messages (allTools r) (world st)) as [[resp|msg] w1] eqn:Hq.
  - destruct (String.eqb_spec (stop_reason resp) "tool_use") as [Hstop|Hstop].
    + rewrite (ServerFacts.loop_body_tool_use _ _ _ _ _ Hq Hstop) in Hbody.
      by destruct (for_blocks r (resp_content resp) [] _) as [[results|msg] st1].
    + rewrite (ServerFacts.loop_body_answer _ _ _ _ _ Hq Hstop) in Hbody.
      injection Hbody as <-. simpl. eauto.
  - by rewrite (ServerFacts.loop_body_engine_throws _ _ _ _ _ Hq) in Hbody.
Qed.

Lemma loop_body_throws r messages st msg st' :
  loop_body r messages st = (Throw msg, st') ->
  exists calls tail,
    written st' = (written st ++ flat_map call_events calls ++ tail)%list
    /\ (tail = [] \/ exists name input, tail = [EvToolCall name input]).
Proof.
  intros Hbody.
  destruct (messages_create messages (allTools r) (world st)) as [[resp|msg1] w1] eqn:Hq.
  - destruct (String.eqb_spec (stop_reason resp) "tool_use") as [Hstop|Hstop].
    + rewrite (ServerFacts.loop_body_tool_use _ _ _ _ _ Hq Hstop) in Hbody.
      destruct (for_blocks r (resp_content resp) [] _) as [[results|msg2] st1] eqn:Hfor;
        [done|].
      injection Hbody as <- <-.
      destruct (for_blocks_events _ _ _ _ _ _ Hfor) as (calls & tail & Hw & Htail).
      exists calls, tail. split; [done|]. by right.
    + by rewrite (ServerFacts.loop_body_answer _ _ _ _ _ Hq Hstop) in Hbody.
  - rewrite (ServerFacts.loop_body_engine_throws _ _ _ _ _ Hq) in Hbody.
    injection Hbody as <- <-. exists [], []. simpl. rewrite app_nil_r. by split; [|left].
Qed.

(** *** The whole loop *)

Lemma loop_shape fuel r messages st o st' :
  loop fuel r messages st = Some (o, st') ->
  exists calls tail,
    written st' = (written st ++ flat_map call_events calls ++ tail)%list
    /\ match o with
       | Ok _ =>
           exists rds text final,
             tail = [EvResponse text;
                     EvDone (messages ++ flat_map round_messages rds
                               ++ [Message assistant (Blocks final)])]
             /\ Forall (fun rd => tool_use_id <$> rd.2 = omap block_id rd.1) rds
       | Throw _ => tail = [] \/ exists name input, tail = [EvToolCall name input]
       end.
Proof.
  revert messages st. induction fuel as [|fuel IH]; intros messages st; simpl; [done|].
  destruct (loop_body r messages st) as [[[messages1|]|msg1] st1] eqn:Hbody.
  - intros Hloop. apply IH in Hloop as (calls2 & tail & Hw2 & Htail).
    apply loop_body_continues in Hbody as (content & results & calls1 & -> & Hids & Hw1).
    exists (calls1 ++ calls2)%list, tail. split.
    + rewrite Hw2, Hw1, flat_map_app. by rewrite <- !app_assoc.
    + destruct o as [[]|msg]; [|done].
      destruct Htail as (rds & text & final & -> & Hrds).
      exists ((content, results) :: rds), text, final. split.
      * simpl. by rewrite <- !app_assoc.
      * by constructor.
  - intros [= <- <-]. apply loop_body_breaks in Hbody as (text & final & Hw).
    exists [], [EvResponse text; EvDone (messages ++ [Message assistant (Blocks final)])].
    split; [done|]. exists [], text, final. done.
  - intros [= <- <-]. by apply loop_body_throws in Hbody.
Qed.

(** X12.  The events of every turn that ends are the [tool_call] and
    [tool_result] events of the dispatched calls, each result right after
    its call and under the same name, followed by one of three endings: a
    [response] and a [done] event; an [error] event; or the [tool_call] of
    the call that failed and an [error] event. *)
Theorem turn_events_shape fuel r message history w events w' :
  chat fuel r message history w = Some (events, w') ->
  exists calls,
    (exists text conversation,
        events = (flat_map call_events calls
                  ++ [EvResponse text; EvDone conversation])%list)
    \/ (exists msg, events = (flat_map call_events calls ++ [EvError msg])%list)
    \/ (exists name input msg,
           events = (flat_map call_events calls
                     ++ [EvToolCall name input; EvError msg])%list).
Proof.
  unfold chat, try_loop.
  destruct (loop fuel r _ _) as [[[[]|msg] st']|] eqn:Hloop; [| |done].
  - intros [= <- <-].
    apply loop_shape in Hloop as (calls & tail & Hw & rds & text & final & -> & _).
    exists calls. left. simpl in Hw. eauto.
  - simpl. intros [= <- <-].
    apply loop_shape in Hloop as (calls & tail & Hw & [->|(name & input & ->)]);
      exists calls; rewrite Hw; simpl.
    + right. left. exists msg. by rewrite app_nil_r.
    + right. right. exists name, input, msg. by rewrite <- app_assoc.
Qed.

(** Rounds told by what happened in them are passes that reach the end of
    the loop body. *)
Lemma tool_rounds_rounds r messages st rds messages' st' :
  tool_rounds r messages st rds messages' st' ->
  rounds (length rds) r messages st = Some (messages', st')
  /\ messages' = (messages ++ flat_map round_messages rds)%list
  /\ Forall (fun rd => tool_use_id <$> rd.2 = omap block_id rd.1) rds.
Proof.
  induction 1 as [messages st
                 |messages st resp w1 results st1 rds messages' st' Hq Hstop Hfor _ IH].
  - simpl. by rewrite app_nil_r.
  - destruct IH as (Hrounds & -> & Hids). cbn [length rounds].
    rewrite (ServerFacts.loop_body_tool_use _ _ _ _ _ Hq Hstop), Hfor.
    split; [exact Hrounds|]. split.
    + simpl. by rewrite <- !app_assoc.
    + constructor; [|done]. simpl.
      by destruct (for_blocks_ids _ _ _ _ _ _ Hfor) as (new & -> & ?).
Qed.

(** X13.  In a turn whose tool rounds are followed by a plain answer of
    the engine, the conversation that the [done] event carries is the
    submitted history, unchanged, then the new user message, then for each
    tool round the content the engine answered as an assistant message and
    the results of that round's dispatch as a user message, then the
    content of the plain answer as an assistant message; each bundle has
    one result per [tool_use] block of its round, in the blocks' order and
    under their ids. *)
Theorem done_conversation_shape fuel r message history w rds messages st resp w1 :
  tool_rounds r (history ++ [Message user (Str message)])%list
    {| world := w; written := [] |} rds messages st ->
  messages_create messages (allTools r) (world st) = (Ok resp, w1) ->
  stop_reason resp <> "tool_use" ->
  chat (length rds + S fuel) r message history w
  = Some ((written st ++
           [EvResponse (first_text (resp_content resp));
            EvDone (history ++ [Message user (Str message)]
                      ++ flat_map round_messages rds
                      ++ [Message assistant (Blocks (resp_content resp))])])%list,
          w1)
  /\ Forall (fun rd => tool_use_id <$> rd.2 = omap block_id rd.1) rds.
Proof.
  intros Hrds Hq Hstop.
  apply tool_rounds_rounds in Hrds as (Hrounds & -> & Hids). split; [|done].
  unfold chat, try_loop. rewrite (ServerFacts.rounds_then_loop _ _ _ _ _ _ _ Hrounds).
  cbn [loop]. rewrite (ServerFacts.loop_body_answer _ _ _ _ _ Hq Hstop).
  cbn [written world]. by rewrite <- !app_assoc.
Qed.

(** X14.  A pass in which the engine answers with stop reason [tool_use]
    and the dispatch of the answer's blocks returns appends exactly two
    messages: the content the engine answered, and the results of the
    dispatch, which are one per [tool_use] block of that content, in the
    blocks' order and under their ids, whatever else the content holds. *)
Theorem results_match_requests r messages st resp w1 results st' :
  messages_create messages (allTools r) (world st) = (Ok resp, w1) ->
  stop_reason resp = "tool_use" ->
  for_blocks r (resp_content resp) [] {| world := w1; written := written st |}
  = (Ok results, st') ->
  loop_body r messages st
  = (Ok (Continue (messages ++ [Message assistant (Blocks (resp_content resp));
                                Message user (ToolResults results)])), st')
  /\ tool_use_id <$> results = omap block_id (resp_content resp).
Proof.
  intros Hq Hstop Hfor. split.
  - by rewrite (ServerFacts.loop_body_tool_use _ _ _ _ _ Hq Hstop), Hfor.
  - by destruct (for_blocks_ids _ _ _ _ _ _ Hfor) as (new & -> & ?).
Qed.

(** X15.  A response that stops for [tool_use] without any [tool_use]
    block writes no event: the pass appends the engine's content and an
    empty bundle of results, and the loop queries the engine again. *)
Theorem empty_tool_round r messages st resp w1 :
  messages_create messages (allTools r) (world st) = (Ok resp, w1) ->
  stop_reason resp = "tool_use" ->
  List.filter is_tool_use (resp_content resp) = [] ->
  loop_body r messages st
  = (Ok (Continue (messages ++ [Message assistant (Blocks (resp_content resp));
                                Message user (ToolResults [])])),
     {| world := w1; written := written st |}).
Proof.
  intros Hq Hstop Hnone.
  by rewrite (ServerFacts.loop_body_tool_use _ _ _ _ _ Hq Hstop),
    ServerFacts.for_blocks_filter, Hnone.
Qed.

End Loop.

End ServerMore.

(** * Properties of the event stream on the wire *)

Module SseFacts.
Import Sse.

Lemma append_cons (c : ascii) (s t : string) : String c s +:+ t = String c (s +:+ t).
Proof. reflexivity. Qed.

Lemma append_nil_r (s : string) : s +:+ "" = s.
Proof. induction s as [|c s IH]; [done|]. by rewrite append_cons, IH. Qed.

Lemma append_assoc (s t u : string) : (s +:+ t) +:+ u = s +:+ t +:+ u.
Proof. induction s as [|c s IH]; [done|]. by rewrite !append_cons, IH. Qed.

Lemma split_nonempty (s : string) : split s <> [].
Proof.
  induction s as [|c s IH]; simpl; [done|].
  destruct (Ascii.eqb c "010"); [done|]. by destruct (split s).
Qed.

Lemma split_one_line (s : string) : one_line s = true -> split s = [s].
Proof.
  induction s as [|c s IH]; simpl; [done|].
  destruct (Ascii.eqb c "010"); simpl; [done|].
  intros Hs. by rewrite (IH Hs).
Qed.

Lemma last_split_one_line (s : string) : one_line (List.last (split s) "") = true.
Proof.
  induction s as [|c s IH]; simpl; [done|].
  pose proof (split_nonempty s).
  destruct (Ascii.eqb c "010") eqn:Hc.
  - by destruct (split s).
  - destruct (split s) as [|x [|y l]]; [done| |done].
    simpl in *. by rewrite Hc.
Qed.

(** Splitting a concatenation: the lines completed by the first part, then
    the lines of its unfinished last line followed by the second part. *)
Lemma split_app (s1 s2 : string) :
  split (s1 +:+ s2)
  = (List.removelast (split s1) ++ split (List.last (split s1) "" +:+ s2))%list.
Proof.
  induction s1 as [|c s1 IH]; [done|].
  rewrite append_cons. cbn [split].
  pose proof (split_nonempty s1) as Hne.
  destruct (Ascii.eqb c "010") eqn:Hc.
  - rewrite IH. by destruct (split s1).
  - rewrite IH. destruct (split s1) as [|x [|y l]]; [done| |done].
    cbn [List.removelast List.last app]. rewrite append_cons. cbn [split].
    by rewrite Hc.
Qed.

Lemma split_line (line rest : string) :
  one_line line = true ->
  split (line +:+ Js.newline +:+ rest) = line :: split rest.
Proof.
  induction line as [|c line IH]; [done|].
  rewrite append_cons. cbn [split one_line].
  destruct (Ascii.eqb c "010"); simpl; [done|].
  intros Hline. by rewrite (IH Hline).
Qed.

Section Reader.
Context {Evt : Type} (parse : string -> option (parsed Evt)).

(** Handling the lines of a concatenation: those of the first list, then,
    unless they threw, those of the second. *)
Lemma handle_lines_app (l1 l2 : list string) :
  handle_lines parse (l1 ++ l2)
  = if (handle_lines parse l1).2 then handle_lines parse l1
    else (((handle_lines parse l1).1 ++ (handle_lines parse l2).1)%list,
          (handle_lines parse l2).2).
Proof.
  induction l1 as [|line l1 IH]; cbn [app handle_lines].
  - by destruct (handle_lines parse l2).
  - destruct (handle_line parse line); [done| |done].
    rewrite IH. destruct (handle_lines parse l1) as [evts []]; [done|].
    cbn [fst snd]. by destruct (handle_lines parse l2).
Qed.

Lemma read_chunks_from (chunks : list string) (buf : string) :
  one_line buf = true ->
  read_chunks parse chunks buf
  = (handle_lines parse
       (List.removelast (split (buf +:+ foldr String.append "" chunks)))).1.
Proof.
  revert buf. induction chunks as [|value chunks IH]; intros buf Hbuf; cbn [read_chunks foldr].
  - by rewrite append_nil_r, (split_one_line _ Hbuf).
  - rewrite (IH _ (last_split_one_line _)).
    rewrite <- append_assoc, (split_app (buf +:+ value)).
    rewrite List.removelast_app by apply split_nonempty.
    rewrite handle_lines_app.
    by destruct (handle_lines parse (List.removelast (split (buf +:+ value))))
      as [evts []].
Qed.


Lemma handle_frame_line (json : string) :
  handle_line parse ("data: " +:+ json)
  = match parse json with
    | None => Skipped
    | Some (Value evt) => Handled evt
    | Some Null => Thrown
    end.
Proof. by destruct json. Qed.

Lemma frames_read (stringify : Evt -> string) (events : list Evt) :
  (forall e, one_line (stringify e) = true) ->
  (forall e, parse (stringify e) = Some (Value e)) ->
  handle_lines parse
    (List.removelast
       (split (foldr (fun e rest => frame (stringify e) +:+ rest) "" events)))
  = (events, false).
Proof.
  intros Hline Hparse. induction events as [|e events IH]; [done|].
  cbn [foldr]. unfold frame at 1. rewrite !append_assoc.
  rewrite <- (append_assoc "data: " (stringify e)).
  rewrite split_line by exact (Hline e).
  change (Js.newline +:+ ?x) with (EmptyString +:+ Js.newline +:+ x).
  rewrite split_line by done.
  pose proof (split_nonempty
                (foldr (fun e rest => frame (stringify e) +:+ rest) "" events)) as Hne.
  assert (forall (x : string) l, l <> [] -> List.removelast (x :: l) = x :: List.removelast l)
    as Hcons by (by intros x [|y l]).
  rewrite !Hcons by done. cbn [handle_lines].
  rewrite handle_frame_line, Hparse.
  change (handle_line parse "") with (@Skipped Evt).
  by rewrite IH.
Qed.

(** X18.  What the server writes, the page reads: when the serialized
    events hold no line feed and parse back to themselves, the reader
    handles exactly the events that [send] framed, in order, however the
    body is cut into chunks. *)
Theorem stream_round_trip (stringify : Evt -> string) (events : list Evt)
    (chunks : list string) :
  (forall e, one_line (stringify e) = true) ->
  (forall e, parse (stringify e) = Some (Value e)) ->
  foldr String.append "" chunks
  = foldr (fun e rest => frame (stringify e) +:+ rest) "" events ->
  read_chunks parse chunks "" = events.
Proof.
  intros Hline Hparse Hbody.
  rewrite read_chunks_from by done. change ("" +:+ ?x) with x. rewrite Hbody.
  by rewrite (frames_read _ _ Hline Hparse).
Qed.

End Reader.
End SseFacts.

(** * Further scenarios, evaluated *)

Module MoreScenarios.
Import Js Mcp Server Trace Scenario Sse.

Lemma turn_events_shape_witness :
  exists events w',
    chat 2 the_registry "add buy milk" [] milk_world = Some (events, w')
    /\ exists calls,
        (exists text conversation,
            events = (flat_map call_events calls
                      ++ [EvResponse text; EvDone conversation])%list)
        \/ (exists msg, events = (flat_map call_events calls ++ [EvError msg])%list)
        \/ (exists name input msg,
               events = (flat_map call_events calls
                         ++ [EvToolCall name input; EvError msg])%list).
Proof.
  eexists _, _. split; [vm_compute; reflexivity|].
  eapply (ServerMore.turn_events_shape 2 the_registry "add buy milk" [] milk_world).
  vm_compute. reflexivity.
Defined.

Lemma done_conversation_shape_witness :
  chat 2 the_registry "add buy milk" [] milk_world
  = Some ([EvToolCall "create_todo" buy_milk;
           EvToolResult "create_todo" milk_created;
           EvResponse "Added!";
           EvDone [Message user (Str "add buy milk");
                   Message assistant (Blocks [ToolUse "toolu_1" "create_todo" buy_milk]);
                   Message user (ToolResults
                     [ToolResult "toolu_1" milk_created]);
                   Message assistant (Blocks [Text "Added!"])]],
          {| data := Some [a_todo "1001" "buy milk" "medium" false]; script := [] |}).
Proof.
  destruct (ServerMore.done_conversation_shape 0 the_registry "add buy milk" [] milk_world
              [([ToolUse "toolu_1" "create_todo" buy_milk],
                [ToolResult "toolu_1" milk_created])]
              [Message user (Str "add buy milk");
               Message assistant (Blocks [ToolUse "toolu_1" "create_todo" buy_milk]);
               Message user (ToolResults
                 [ToolResult "toolu_1" milk_created])]
              {| world := {| data := Some [a_todo "1001" "buy milk" "medium" false];
                             script := [answer "Added!"] |};
                 written := [EvToolCall "create_todo" buy_milk;
                             EvToolResult "create_todo"
                               milk_created] |}
              {| stop_reason := "end_turn"; resp_content := [Text "Added!"] |}
              {| data := Some [a_todo "1001" "buy milk" "medium" false]; script := [] |})
    as (Hrun & _).
  - apply (rounds_next the_registry [Message user (Str "add buy milk")]
             {| world := milk_world; written := [] |}
             {| stop_reason := "tool_use";
                resp_content := [ToolUse "toolu_1" "create_todo" buy_milk] |}
             {| data := None; script := [answer "Added!"] |}
             [ToolResult "toolu_1" milk_created]
             {| world := {| data := Some [a_todo "1001" "buy milk" "medium" false];
                            script := [answer "Added!"] |};
                written := [EvToolCall "create_todo" buy_milk;
                            EvToolResult "create_todo" milk_created] |}
             []).
    + reflexivity.
    + reflexivity.
    + vm_compute. reflexivity.
    + apply rounds_over.
  - reflexivity.
  - discriminate.
  - exact Hrun.
Defined.

Lemma results_match_requests_witness :
  loop_body the_registry [Message user (Str "add buy milk and show my list")]
    {| world := two_calls_world; written := [] |}
  = (Ok (Continue
           [Message user (Str "add buy milk and show my list");
            Message assistant (Blocks [Text "Adding it, then listing.";
                                       ToolUse "toolu_1" "create_todo" buy_milk;
                                       ToolUse "toolu_2" "list_todos" ∅]);
            Message user (ToolResults
              [ToolResult "toolu_1" milk_created;
               ToolResult "toolu_2" "[1001] ○ buy milk | medium priority"])]),
     {| world := {| data := Some [a_todo "1001" "buy milk" "medium" false];
                    script := [answer "Done."] |};
        written := [EvToolCall "create_todo" buy_milk;
                    EvToolResult "create_todo" milk_created;
                    EvToolCall "list_todos" ∅;
                    EvToolResult "list_todos" "[1001] ○ buy milk | medium priority"] |})
  /\ ["toolu_1"; "toolu_2"]
     = omap block_id [Text "Adding it, then listing.";
                      ToolUse "toolu_1" "create_todo" buy_milk;
                      ToolUse "toolu_2" "list_todos" (∅ : args)].
Proof.
  apply (ServerMore.results_match_requests the_registry
           [Message user (Str "add buy milk and show my list")]
           {| world := two_calls_world; written := [] |}
           {| stop_reason := "tool_use";
              resp_content := [Text "Adding it, then listing.";
                               ToolUse "toolu_1" "create_todo" buy_milk;
                               ToolUse "toolu_2" "list_todos" ∅] |}
           {| data := None; script := [answer "Done."] |}
           [ToolResult "toolu_1" milk_created;
            ToolResult "toolu_2" "[1001] ○ buy milk | medium priority"]).
  - reflexivity.
  - reflexivity.
  - vm_compute. reflexivity.
Defined.

Lemma empty_tool_round_witness :
  loop_body the_registry [Message user (Str "hm")]
    {| world := {| data := None; script := [ask [Text "Let me think."]] |};
       written := [] |}
  = (Ok (Continue [Message user (Str "hm");
                   Message assistant (Blocks [Text "Let me think."]);
                   Message user (ToolResults [])]),
     {| world := {| data := None; script := [] |}; written := [] |}).
Proof.
  apply (ServerMore.empty_tool_round the_registry [Message user (Str "hm")]
           {| world := {| data := None; script := [ask [Text "Let me think."]] |};
              written := [] |}
           {| stop_reason := "tool_use"; resp_content := [Text "Let me think."] |}
           {| data := None; script := [] |}).
  - reflexivity.
  - reflexivity.
  - reflexivity.
Defined.

Lemma stream_round_trip_witness :
  read_chunks parse_bool
    [ "data: tr"; "ue" +:+ newline +:+ newline +:+ "da";
      "ta: false" +:+ newline; newline ] ""
  = [true; false].
Proof.
  apply (SseFacts.stream_round_trip parse_bool stringify_bool).
  - intros []; reflexivity.
  - intros []; reflexivity.
  - reflexivity.
Defined.

(** After a line that parses to [null] nothing more is handled. *)
Example null_line_ends_reading :
  read_chunks parse_bool
    [ "data: true" +:+ newline +:+ "data: nu"; "ll" +:+ newline +:+ "data: false" +:+ newline ]
    ""
  = [true].
Proof. reflexivity. Qed.

(** A frame that a chunk boundary cuts is read once its end arrives; a
    body that stops before the line feed loses its last event. *)
Example cut_body_loses_last_event :
  read_chunks parse_bool [ "data: true" +:+ newline +:+ newline +:+ "data: fal"; "se" ] ""
  = [true].
Proof. reflexivity. Qed.

End MoreScenarios.

(** * Properties of the page over a turn *)

Module PageFacts.
Import Js Mcp Server Trace Page.

Lemma mark_last_pushed (name : string) (l : list indicator) :
  mark_last name (l ++ [Indicator name false]) = (l ++ [Indicator name true])%list.
Proof.
  unfold mark_last. rewrite rev_unit. simpl. rewrite String.eqb_refl. simpl.
  by rewrite rev_involutive.
Qed.

Section Turn.
Context {Input World : Type} `{!Backend Input World}.

Implicit Types (calls : list (string * Input * string)).

(** Each dispatched call leaves one indicator, marked done. *)
Lemma handle_calls calls (p : page Input) :
  foldl handle p (flat_map call_events calls)
  = {| history := history p;
       indicators := (indicators p
                      ++ ((fun c => Indicator c.1.1 true) <$> calls))%list |}.
Proof.
  revert p. induction calls as [|[[name input] result] calls IH]; intros p; simpl.
  - rewrite app_nil_r. by destruct p.
  - rewrite IH. simpl. rewrite mark_last_pushed. by rewrite <- app_assoc.
Qed.

(** The events of a turn that ended, with the conversation of its [done]
    event. *)
Lemma chat_cases fuel (r : registry) (message : string)
    (h : list (Server.message Input)) (w : World) events w' :
  chat fuel r message h w = Some (events, w') ->
  exists calls,
    (exists text rds final,
        events = (flat_map call_events calls
                  ++ [EvResponse text;
                      EvDone ((h ++ [Message user (Str message)])
                                ++ flat_map round_messages rds
                                ++ [Message assistant (Blocks final)])])%list)
    \/ (exists msg, events = (flat_map call_events calls ++ [EvError msg])%list)
    \/ (exists name input msg,
           events = (flat_map call_events calls
                     ++ [EvToolCall name input; EvError msg])%list).
Proof.
  unfold chat, try_loop.
  destruct (loop fuel r _ _) as [[[[]|msg] st']|] eqn:Hloop; [| |done].
  - intros [= <- <-].
    apply ServerMore.loop_shape in Hloop
      as (calls & tail & Hw & rds & text & final & -> & _).
    exists calls. left. exists text, rds, final. by rewrite Hw.
  - simpl. intros [= <- <-].
    apply ServerMore.loop_shape in Hloop
      as (calls & tail & Hw & [->|(name & input & ->)]);
      exists calls; rewrite Hw; simpl.
    + right. left. exists msg. by rewrite app_nil_r.
    + right. right. exists name, input, msg. by rewrite <- app_assoc.
Qed.

(** X19.  After a turn that ended with a [done] event, every tool
    indicator of the page is marked done, and the page's history is the
    conversation of that event, which starts with the history the page
    sent followed by the user's message. *)
Theorem page_after_done_turn fuel (r : registry) (message : string)
    (h : list (Server.message Input)) (w : World) events w' conversation :
  chat fuel r message h w = Some (events, w') ->
  last events = Some (EvDone conversation) ->
  Forall (fun i => ind_done i = true) (indicators (after_events h events))
  /\ history (after_events h events) = conversation
  /\ (h ++ [Message user (Str message)])%list `prefix_of` conversation.
Proof.
  intros Hchat Hlast. unfold after_events.
  destruct (chat_cases _ _ _ _ _ _ _ Hchat)
    as (calls & [(text & rds & final & ->)|[(msg & ->)|(name & input & msg & ->)]]).
  - change [EvResponse text; EvDone ?c] with ([EvResponse text] ++ [EvDone c])%list in Hlast.
    rewrite !app_assoc, last_snoc in Hlast. injection Hlast as <-.
    rewrite foldl_app, handle_calls. simpl. split; [|split].
    + apply Forall_fmap, Forall_forall. done.
    + by rewrite <- !app_assoc.
    + rewrite <- app_assoc. by apply prefix_app_r.
  - by rewrite last_snoc in Hlast.
  - change [EvToolCall name input; EvError msg]
      with ([EvToolCall name input] ++ [EvError msg])%list in Hlast.
    by rewrite !app_assoc, last_snoc in Hlast.
Qed.

(** X20.  After a turn that ended with an [error] event the page's
    history is the one it sent: the failed exchange, the user's message
    included, is not kept.  Its indicators are all marked done, or all but
    the last, which stays active: that of the call that failed. *)
Theorem page_after_failed_turn fuel (r : registry) (message : string)
    (h : list (Server.message Input)) (w : World) events w' msg :
  chat fuel r message h w = Some (events, w') ->
  last events = Some (EvError msg) ->
  history (after_events h events) = h
  /\ exists done_ones,
      Forall (fun i => ind_done i = true) done_ones
      /\ (indicators (after_events h events) = done_ones
          \/ exists name,
              indicators (after_events h events)
              = (done_ones ++ [Indicator name false])%list).
Proof.
  intros Hchat Hlast. unfold after_events.
  destruct (chat_cases _ _ _ _ _ _ _ Hchat)
    as (calls & [(text & rds & final & ->)|[(msg' & ->)|(name & input & msg' & ->)]]).
  - change [EvResponse text; EvDone ?c] with ([EvResponse text] ++ [EvDone c])%list in Hlast.
    by rewrite !app_assoc, last_snoc in Hlast.
  - rewrite foldl_app, handle_calls. simpl. split; [done|].
    eexists. split; [|by left]. apply Forall_fmap, Forall_forall. done.
  - rewrite foldl_app, handle_calls. simpl. split; [done|].
    eexists. split; [|right; by exists name]. apply Forall_fmap, Forall_forall. done.
Qed.

End Turn.
End PageFacts.

Module PageScenarios.
Import Js Mcp Server Trace Page Scenario.

Lemma page_after_done_turn_witness :
  exists events w' conversation,
    chat 2 the_registry "add buy milk" [] milk_world = Some (events, w')
    /\ last events = Some (EvDone conversation)
    /\ Forall (fun i => ind_done i = true) (indicators (after_events [] events))
    /\ history (after_events [] events) = conversation
    /\ ([] ++ [Message user (Str "add buy milk")])%list `prefix_of` conversation.
Proof.
  eexists _, _, _. split; [vm_compute; reflexivity|]. split; [reflexivity|].
  eapply (PageFacts.page_after_done_turn 2 the_registry "add buy milk" [] milk_world).
  - vm_compute. reflexivity.
  - reflexivity.
Defined.

Lemma page_after_failed_turn_witness :
  exists events w',
    chat 3 the_registry "archive everything" [] unknown_tool_world = Some (events, w')
    /\ history (after_events [] events) = []
    /\ exists done_ones,
        Forall (fun i => ind_done i = true) done_ones
        /\ (indicators (after_events [] events) = done_ones
            \/ exists name,
                indicators (after_events [] events)
                = (done_ones ++ [Indicator name false])%list).
Proof.
  eexists _, _. split; [vm_compute; reflexivity|].
  eapply (PageFacts.page_after_failed_turn 3 the_registry "archive everything" []
            unknown_tool_world).
  - vm_compute. reflexivity.
  - reflexivity.
Defined.

(** The indicator of the call that failed stays active. *)
Example failed_call_indicator_stays_active :
  indicators (after_events ([] : list (message args))
                [EvToolCall "archive_todo" ∅;
                 EvError "No MCP server registered for tool: archive_todo"])
  = [Indicator "archive_todo" false].
Proof. reflexivity. Qed.

End PageScenarios.
